(** * zen_tracker: a shallow embedding of [tracker.py]

    The program fetches a status page, reads three outage tables out of the
    HTML tree, keeps the rows close to today and prints them.

    Embedding choices.
    - A Python [str] is a [string]: the strings of the embedding are those
      whose characters have code points below 256 (there the decimal
      digits are 0 to 9), and statements about all strings are about
      these.  Regular-expression matching runs on [list ascii].
    - A value that may be [None] is an [option].
    - A raised exception is the [Err] branch of [result]; statements are
      sequenced with the bind notation below, in source order.
    - [date.today()] is the parameter [today] of [parse_page].
    - [html.fromstring] is outside the embedding: [parse_page] takes the
      element tree that lxml built.
    - [print] appends its argument to the output of [report]. *)

From Stdlib Require Import List String Ascii ZArith Lia Bool Arith.
Import ListNotations.

Local Open Scope string_scope.
Local Open Scope list_scope.
Local Open Scope Z_scope.

(** ** Exceptions and results *)

Inductive exception : Type :=
| IndexError
| TypeError
| ValueError.

Inductive result (A : Type) : Type :=
| Ok (a : A)
| Err (e : exception).

Arguments Ok {A} a.
Arguments Err {A} e.

Definition bind {A B : Type} (m : result A) (f : A -> result B) : result B :=
  match m with
  | Ok a => f a
  | Err e => Err e
  end.

Declare Scope py_scope.
Delimit Scope py_scope with py.
Notation "x <- m ;; k" := (bind m (fun x => k))
  (at level 61, m at next level, right associativity) : py_scope.
Local Open Scope py_scope.

Definition is_ok {A : Type} (m : result A) : bool :=
  match m with
  | Ok _ => true
  | Err _ => false
  end.

(** ** The [datetime] module *)

Module Datetime.

(** [datetime.date]. *)
Record date : Type := mkdate {
  d_year : Z;
  d_month : Z;
  d_day : Z
}.

(** [datetime.datetime], naive (no tzinfo). *)
Record datetime : Type := mkdatetime {
  year : Z;
  month : Z;
  day : Z;
  hour : Z;
  minute : Z;
  second : Z;
  microsecond : Z
}.

(** [datetime.timedelta], normalised: days, seconds, microseconds. *)
Record timedelta : Type := mktimedelta {
  td_days : Z;
  td_seconds : Z;
  td_microseconds : Z
}.

(** [timedelta(days=n)]. *)
Definition timedelta_days (n : Z) : timedelta := mktimedelta n 0 0.

(** [timedelta.__lt__]: comparison of the (days, seconds, microseconds)
    tuples. *)
Definition td_lt (a b : timedelta) : bool :=
  (td_days a <? td_days b)
  || ((td_days a =? td_days b)
      && ((td_seconds a <? td_seconds b)
          || ((td_seconds a =? td_seconds b)
              && (td_microseconds a <? td_microseconds b)))).

Definition _is_leap (y : Z) : bool :=
  (y mod 4 =? 0) && (negb (y mod 100 =? 0) || (y mod 400 =? 0)).

Definition _days_before_year (y : Z) : Z :=
  let y' := y - 1 in
  y' * 365 + y' / 4 - y' / 100 + y' / 400.

(** The table [_DAYS_IN_MONTH], indexed from 1. *)
Definition _DAYS_IN_MONTH (m : Z) : Z :=
  match m with
  | 1 => 31 | 2 => 28 | 3 => 31 | 4 => 30 | 5 => 31 | 6 => 30
  | 7 => 31 | 8 => 31 | 9 => 30 | 10 => 31 | 11 => 30 | 12 => 31
  | _ => 0
  end.

(** The table [_DAYS_BEFORE_MONTH], indexed from 1. *)
Definition _DAYS_BEFORE_MONTH (m : Z) : Z :=
  match m with
  | 1 => 0 | 2 => 31 | 3 => 59 | 4 => 90 | 5 => 120 | 6 => 151
  | 7 => 181 | 8 => 212 | 9 => 243 | 10 => 273 | 11 => 304 | 12 => 334
  | _ => 0
  end.

Definition _days_in_month (y m : Z) : Z :=
  if (m =? 2) && _is_leap y then 29 else _DAYS_IN_MONTH m.

Definition _days_before_month (y m : Z) : Z :=
  _DAYS_BEFORE_MONTH m + (if (2 <? m) && _is_leap y then 1 else 0).

Definition _ymd2ord (y m d : Z) : Z :=
  _days_before_year y + _days_before_month y m + d.

(** [date.toordinal()]. *)
Definition toordinal (d : date) : Z :=
  _ymd2ord (d_year d) (d_month d) (d_day d).

(** [date.__sub__] on two dates. *)
Definition date_sub (a b : date) : timedelta :=
  timedelta_days (toordinal a - toordinal b).

(** [datetime.date()]. *)
Definition date_of (dt : datetime) : date :=
  mkdate (year dt) (month dt) (day dt).

(** [_check_date_fields]. *)
Definition check_date_fields (y m d : Z) : bool :=
  (1 <=? y) && (y <=? 9999) && (1 <=? m) && (m <=? 12)
  && (1 <=? d) && (d <=? _days_in_month y m).

(** [_check_time_fields], for the fields [strptime] fills in. *)
Definition check_time_fields (h mi s us : Z) : bool :=
  (0 <=? h) && (h <=? 23) && (0 <=? mi) && (mi <=? 59)
  && (0 <=? s) && (s <=? 59) && (0 <=? us) && (us <=? 999999).

(** A value the [datetime] constructor accepts. *)
Definition valid_datetime (dt : datetime) : bool :=
  check_date_fields (year dt) (month dt) (day dt)
  && check_time_fields (hour dt) (minute dt) (second dt) (microsecond dt).

(** [d' == d + timedelta(days=k)]: [date.__add__] goes through the
    ordinals, [fromordinal (toordinal d + k)]. *)
Definition plus_days (d : date) (k : Z) (d' : date) : Prop :=
  toordinal d' = toordinal d + k.

End Datetime.
Import Datetime.

(** ** Regular expressions, as [re.match] runs them

    [datetime.strptime] turns its format into a regular expression and
    matches it at the start of the data with a backtracking matcher:
    alternatives are tried left to right, [+] is greedy, and the first way
    that lets the rest of the pattern match wins.  The matcher below is
    written with a continuation [k] for "the rest of the pattern". *)

Module Re.

Inductive re : Type :=
| Chr (c : ascii)
| Cls (p : ascii -> bool)
| Cat (r1 r2 : re)
| Alt (r1 r2 : re)
| Plus (p : ascii -> bool).

Definition code (c : ascii) : nat := nat_of_ascii c.

(** A character range [[lo-hi]]. *)
Definition in_range (lo hi c : ascii) : bool :=
  (Nat.leb (code lo) (code c) && Nat.leb (code c) (code hi))%bool.

(** [\d] on code points below 256. *)
Definition is_digit (c : ascii) : bool := in_range "0" "9" c.

(** [\s] on code points below 256: tab to carriage return, the four
    separators 28 to 31, space, NEL (133) and the no-break space (160). *)
Definition is_space (c : ascii) : bool :=
  let n := code c in
  ((Nat.leb 9 n && Nat.leb n 13) || (Nat.leb 28 n && Nat.leb n 32)
   || Nat.eqb n 133 || Nat.eqb n 160)%bool.

(** Greedy [p*]: take one more character if possible, and give it back
    when the rest fails. *)
Fixpoint star {A : Type} (p : ascii -> bool) (s : list ascii)
    (k : list ascii -> option A) : option A :=
  match s with
  | c :: s' =>
      if p c then
        match star p s' k with
        | Some x => Some x
        | None => k s
        end
      else k s
  | [] => k s
  end.

Fixpoint rmatch {A : Type} (r : re) (s : list ascii)
    (k : list ascii -> option A) : option A :=
  match r with
  | Chr c =>
      match s with
      | c' :: s' => if Ascii.eqb c c' then k s' else None
      | [] => None
      end
  | Cls p =>
      match s with
      | c' :: s' => if p c' then k s' else None
      | [] => None
      end
  | Cat r1 r2 => rmatch r1 s (fun s1 => rmatch r2 s1 k)
  | Alt r1 r2 =>
      match rmatch r1 s k with
      | Some x => Some x
      | None => rmatch r2 s k
      end
  | Plus p =>
      match s with
      | c' :: s' => if p c' then star p s' k else None
      | [] => None
      end
  end.

(** The text a group matched: what [s] lost on the way to [rest]. *)
Definition consumed (s rest : list ascii) : list ascii :=
  firstn (List.length s - List.length rest) s.

(** The words a regular expression matches. *)
Inductive lang : re -> list ascii -> Prop :=
| lang_chr c : lang (Chr c) [c]
| lang_cls p c : p c = true -> lang (Cls p) [c]
| lang_cat r1 r2 u v : lang r1 u -> lang r2 v -> lang (Cat r1 r2) (u ++ v)
| lang_alt_l r1 r2 u : lang r1 u -> lang (Alt r1 r2) u
| lang_alt_r r1 r2 u : lang r2 u -> lang (Alt r1 r2) u
| lang_plus p c u : p c = true -> Forall (fun x => p x = true) u ->
    lang (Plus p) (c :: u).

End Re.
Import Re.

(** ** [_strptime] for the format of the program *)

Module Strptime.

Inductive directive : Type := dir_d | dir_m | dir_Y | dir_H | dir_M.

Definition directive_eqb (a b : directive) : bool :=
  match a, b with
  | dir_d, dir_d | dir_m, dir_m | dir_Y, dir_Y
  | dir_H, dir_H | dir_M, dir_M => true
  | _, _ => false
  end.

Definition digit : re := Cls is_digit.
Definition rng (lo hi : ascii) : re := Cls (in_range lo hi).

(** The entries of [TimeRE] for the five directives:
    - d: [3[0-1]|[1-2]\d|0[1-9]|[1-9]| [1-9]]
    - m: [1[0-2]|0[1-9]|[1-9]]
    - Y: [\d\d\d\d]
    - H: [2[0-3]|[0-1]\d|\d]
    - M: [[0-5]\d|\d] *)
Definition directive_re (d : directive) : re :=
  match d with
  | dir_d =>
      Alt (Cat (Chr "3") (rng "0" "1"))
     (Alt (Cat (rng "1" "2") digit)
     (Alt (Cat (Chr "0") (rng "1" "9"))
     (Alt (rng "1" "9")
          (Cat (Chr " ") (rng "1" "9")))))
  | dir_m =>
      Alt (Cat (Chr "1") (rng "0" "2"))
     (Alt (Cat (Chr "0") (rng "1" "9"))
          (rng "1" "9"))
  | dir_Y => Cat digit (Cat digit (Cat digit digit))
  | dir_H =>
      Alt (Cat (Chr "2") (rng "0" "3"))
     (Alt (Cat (rng "0" "1") digit)
          digit)
  | dir_M => Alt (Cat (rng "0" "5") digit) digit
  end.

(** A format is a sequence of directives, literal characters and runs of
    white space (each run becomes [\s+]). *)
Inductive item : Type :=
| Dir (d : directive)
| Lit (c : ascii)
| Space.

(** ["%d/%m/%Y %H:%M"]. *)
Definition format : list item :=
  [Dir dir_d; Lit "/"; Dir dir_m; Lit "/"; Dir dir_Y; Space;
   Dir dir_H; Lit ":"; Dir dir_M].

(** The groups of a match ([found.groupdict()]), latest first. *)
Definition found_dict : Type := list (directive * list ascii).

Fixpoint match_items (items : list item) (s : list ascii) (found : found_dict)
    : option (found_dict * list ascii) :=
  match items with
  | [] => Some (found, s)
  | Dir d :: items' =>
      rmatch (directive_re d) s
        (fun rest => match_items items' rest ((d, consumed s rest) :: found))
  | Lit c :: items' =>
      rmatch (Chr c) s (fun rest => match_items items' rest found)
  | Space :: items' =>
      rmatch (Plus is_space) s (fun rest => match_items items' rest found)
  end.

Fixpoint lookup (d : directive) (found : found_dict) : option (list ascii) :=
  match found with
  | [] => None
  | (d', v) :: found' => if directive_eqb d d' then Some v else lookup d found'
  end.

Fixpoint lstrip (s : list ascii) : list ascii :=
  match s with
  | c :: s' => if is_space c then lstrip s' else s
  | [] => []
  end.

Definition strip (s : list ascii) : list ascii :=
  rev (lstrip (rev (lstrip s))).

Definition digit_val (c : ascii) : Z := Z.of_nat (code c) - 48.

Fixpoint digits_value (acc : Z) (s : list ascii) : option Z :=
  match s with
  | [] => Some acc
  | c :: s' =>
      if is_digit c then digits_value (10 * acc + digit_val c) s' else None
  end.

(** [int(text)] on the text of a group: white space around the number is
    dropped and the rest is read in base ten.  The groups of this format
    hold digits only, the day possibly after one space, so signs and
    underscores do not arise. *)
Definition py_int (s : list ascii) : option Z :=
  match strip s with
  | [] => None
  | t => digits_value 0 t
  end.

(** The field named by a directive, or its default when the format does
    not have the directive. *)
Definition field (found : found_dict) (d : directive) (default : Z)
    : result Z :=
  match lookup d found with
  | None => Ok default
  | Some v =>
      match py_int v with
      | Some n => Ok n
      | None => Err ValueError
      end
  end.

(** [datetime.strptime(data, "%d/%m/%Y %H:%M")]: no match, text left over
    after the match, and a date that does not exist all raise
    [ValueError]. *)
Definition strptime (data : string) : result datetime :=
  let s := list_ascii_of_string data in
  match match_items format s [] with
  | None => Err ValueError
  | Some (found, rest) =>
      match rest with
      | _ :: _ => Err ValueError
      | [] =>
          y <- field found dir_Y 1900 ;;
          m <- field found dir_m 1 ;;
          d <- field found dir_d 1 ;;
          H <- field found dir_H 0 ;;
          M <- field found dir_M 0 ;;
          if check_date_fields y m d
          then Ok (mkdatetime y m d H M 0 0)
          else Err ValueError
      end
  end.

End Strptime.
Import Strptime.

(** ** [parse_date] *)

(** [datestr] is what [.text] of a cell gives: a string or [None];
    [strptime] raises [TypeError] when its argument is not a string. *)
Definition parse_date (datestr : option string) : result datetime :=
  match datestr with
  | None => Err TypeError
  | Some s => strptime s
  end.

(** ** The element tree of lxml *)

Module Html.

#[local] Set Warnings "-register-all".

(** A node of the tree.  An element has a tag, attributes, the text
    before its first child, the text after its closing tag, and child
    nodes.  A comment (or a processing instruction) has its own text and
    the text after it, and no children; it sits among the children of an
    element, where [row[i]] and [len(row)] count it like an element. *)
Inductive element : Type :=
| Element (tag : string) (attrib : list (string * string))
    (text : option string) (tail : option string) (children : list element)
| Comment (text : string) (tail : option string).

Definition attrib (e : element) : list (string * string) :=
  match e with
  | Element _ a _ _ _ => a
  | Comment _ _ => []
  end.
Definition text (e : element) : option string :=
  match e with
  | Element _ _ t _ _ => t
  | Comment t _ => Some t
  end.
Definition tail (e : element) : option string :=
  match e with
  | Element _ _ _ t _ => t
  | Comment _ t => t
  end.
Definition children (e : element) : list element :=
  match e with
  | Element _ _ _ _ cs => cs
  | Comment _ _ => []
  end.

(** [e.get(name)]. *)
Fixpoint get (a : list (string * string)) (name : string) : option string :=
  match a with
  | [] => None
  | (n, v) :: a' => if String.eqb n name then Some v else get a' name
  end.

Definition or_empty (t : option string) : string :=
  match t with
  | Some s => s
  | None => ""
  end.

(** The text nodes at and below an element, in document order: its text,
    then for each child what is below the child and the text after it.  The
    text of a comment is no text node; the text after a comment is one. *)
Fixpoint inner_text (e : element) : string :=
  match e with
  | Element _ _ t _ cs =>
      (or_empty t ++
       String.concat ""
         (map (fun c => inner_text c ++ or_empty (tail c)) cs))%string
  | Comment _ _ => ""
  end.

(** [e.text_content()], the XPath [string()] of the node: for an element
    its text nodes, for a comment its own text. *)
Definition text_content (e : element) : string :=
  match e with
  | Element _ _ _ _ _ => inner_text e
  | Comment t _ => t
  end.

(** [row[i]]: the i-th child, [IndexError] when there is none. *)
Definition getitem (e : element) (i : nat) : result element :=
  match nth_error (children e) i with
  | Some c => Ok c
  | None => Err IndexError
  end.

(** The test [table[@id="g"]]. *)
Definition is_table (g : string) (e : element) : bool :=
  match e with
  | Element t a _ _ _ =>
      (String.eqb t "table"
       && match get a "id" with
          | Some v => String.eqb v g
          | None => false
          end)%bool
  | Comment _ _ => false
  end.

(** [//table[@id="g"]//tbody//tr] below and at [e], in document order.
    [in_table]: some proper ancestor is a table with that id; [in_tbody]:
    some proper ancestor is a [tbody] that has such a table above it.  A
    [tr] is selected once, however many tables and bodies enclose it. *)
Fixpoint select (g : string) (in_table in_tbody : bool) (e : element)
    : list element :=
  match e with
  | Element t _ _ _ cs =>
      (if (in_tbody && String.eqb t "tr")%bool then [e] else [])
      ++ flat_map
           (select g (in_table || is_table g e)%bool
              (in_tbody || (in_table && String.eqb t "tbody"))%bool)
           cs
  | Comment _ _ => []
  end.

(** [tree.xpath("//table[@id=...]//tbody//tr")] from the root. *)
Definition xpath_rows (g : string) (tree : element) : list element :=
  select g false false tree.

(** Some element of the tree is a table with id [g]. *)
Fixpoint has_table (g : string) (e : element) : bool :=
  match e with
  | Element _ _ _ _ cs => (is_table g e || existsb (has_table g) cs)%bool
  | Comment _ _ => false
  end.

End Html.
Import Html.

(** ** [parse_page] *)

(** The dict built for a row. *)
Record issue : Type := mkissue {
  issue_type : option string;
  reference : string;
  start : datetime;
  end_ : datetime;
  codes : option string
}.

Definition grid_prefix : string :=
  "ctl00_ctl00_ContentPlaceholderColumnTwo_PageContent_".

(** The three grid names, by the index of their list in [issues]. *)
Definition gridname (k : nat) : string :=
  match k with
  | 0%nat => grid_prefix ++ "currentOutagesGridView"
  | 1%nat => grid_prefix ++ "plannedOutagesGridView"
  | _ => grid_prefix ++ "pastOutagesGridView"
  end%string.

Definition time_gap : timedelta := timedelta_days 2.

(** The five assignments of a loop body, in source order. *)
Definition parse_row (row : element) : result issue :=
  c0 <- getitem row 0 ;;
  let ty := text c0 in
  c1 <- getitem row 1 ;;
  let ref := text_content c1 in
  c2 <- getitem row 2 ;;
  st <- parse_date (text c2) ;;
  c3 <- getitem row 3 ;;
  en <- parse_date (text c3) ;;
  c4 <- getitem row 4 ;;
  Ok (mkissue ty ref st en (text c4)).

(** The condition of the [if] of a loop body. *)
Definition in_window (today : date) (i : issue) : bool :=
  (td_lt (date_sub (date_of (start i)) today) time_gap
   && td_lt (date_sub today (date_of (end_ i))) time_gap)%bool.

(** [issues[k].append(x)]. *)
Fixpoint append_at (k : nat) (x : issue) (issues : list (list issue))
    {struct issues} : result (list (list issue)) :=
  match issues, k with
  | [], _ => Err IndexError
  | l :: ls, O => Ok ((l ++ [x]) :: ls)
  | l :: ls, S k' => ls' <- append_at k' x ls ;; Ok (l :: ls')
  end.

(** One [for row in ...] loop; the three loops of the source differ in the
    grid name and in the index [k] only. *)
Fixpoint loop (today : date) (k : nat) (rows : list element)
    (issues : list (list issue)) : result (list (list issue)) :=
  match rows with
  | [] => Ok issues
  | row :: rows' =>
      i <- parse_row row ;;
      issues' <- (if in_window today i then append_at k i issues
                  else Ok issues) ;;
      loop today k rows' issues'
  end.

Definition parse_page (today : date) (tree : element)
    : result (list (list issue)) :=
  let issues := [[]; []; []] in
  issues <- loop today 2 (xpath_rows (gridname 2) tree) issues ;;
  issues <- loop today 1 (xpath_rows (gridname 1) tree) issues ;;
  issues <- loop today 0 (xpath_rows (gridname 0) tree) issues ;;
  Ok issues.

(** ** [report] *)

Definition digit_char (d : Z) : ascii := ascii_of_nat (48 + Z.to_nat d).

(** The last [w] decimal digits of [n], as [%0wd] prints a number that has
    at most [w] digits. *)
Fixpoint fixed_digits (w : nat) (n : Z) : list ascii :=
  match w with
  | O => []
  | S w' => fixed_digits w' (n / 10) ++ [digit_char (n mod 10)]
  end.

Definition zero_padded (w : nat) (n : Z) : string :=
  string_of_list_ascii (fixed_digits w n).

(** [datetime.isoformat()]. *)
Definition isoformat (dt : datetime) : string :=
  (zero_padded 4 (year dt) ++ "-" ++ zero_padded 2 (month dt) ++ "-"
   ++ zero_padded 2 (day dt) ++ "T" ++ zero_padded 2 (hour dt) ++ ":"
   ++ zero_padded 2 (minute dt) ++ ":" ++ zero_padded 2 (second dt)
   ++ (if (microsecond dt =? 0)%Z then ""
       else "." ++ zero_padded 6 (microsecond dt)))%string.

(** [s[start:]], with the index adjusted as Python slices do. *)
Definition slice_from (start : Z) (s : string) : string :=
  let len := Z.of_nat (String.length s) in
  let st := if start <? 0 then Z.max 0 (start + len) else Z.min start len in
  substring (Z.to_nat st) (Z.to_nat (len - st)) s.

Definition outage_id (i : issue) : string := slice_from 2 (reference i).

Definition message (i : issue) : string :=
  ("Outage " ++ reference i ++ " planned to start at "
   ++ isoformat (start i) ++ " and end at "
   ++ isoformat (end_ i) ++ ". Hopefully check "
   ++ "reference " ++ reference i ++ " at "
   ++ "https://status.zen.co.uk/broadband/maintenance-outage-details.aspx?reference="
   ++ outage_id i)%string.

(** [issues[k]] in [report]. *)
Definition bucket (issues : list (list issue)) (k : nat)
    : result (list issue) :=
  match nth_error issues k with
  | Some l => Ok l
  | None => Err IndexError
  end.

(** What one issue prints, per loop: one string for each call of [print].
    The first loop builds the message and prints the heading only. *)
Definition report_current (i : issue) : list string :=
  let _ := message i in
  [("Outage current at " ++ isoformat (start i))%string].

Definition report_planned (i : issue) : list string :=
  [("Outage planned at " ++ isoformat (start i))%string; message i].

Definition report_past (i : issue) : list string :=
  [("Outage complete, ended at " ++ isoformat (end_ i))%string; message i].

(** [report]: the strings it prints, one for each call of [print], in
    order. *)
Definition report (issues : list (list issue)) : result (list string) :=
  l0 <- bucket issues 0 ;;
  let out0 := flat_map report_current l0 in
  l1 <- bucket issues 1 ;;
  let out1 := flat_map report_planned l1 in
  l2 <- bucket issues 2 ;;
  let out2 := flat_map report_past l2 in
  Ok (out0 ++ out1 ++ out2).

(** ** Reference notions used in the statements *)

(** The records of a list of rows, when every row can be read. *)
Fixpoint parse_rows (rows : list element) : result (list issue) :=
  match rows with
  | [] => Ok []
  | row :: rows' =>
      i <- parse_row row ;;
      l <- parse_rows rows' ;;
      Ok (i :: l)
  end.

(** [issues] with [l] added at the end of its k-th list. *)
Fixpoint extend (k : nat) (l : list issue) (issues : list (list issue))
    {struct issues} : list (list issue) :=
  match issues, k with
  | [], _ => []
  | b :: bs, O => (b ++ l) :: bs
  | b :: bs, S k' => b :: extend k' l bs
  end.

(** The recency test written on day numbers. *)
Definition near (today : date) (i : issue) : bool :=
  ((toordinal (date_of (start i)) - toordinal today <? 2)
   && (toordinal today - toordinal (date_of (end_ i)) <? 2))%bool.

(** Row [r] reads as record [i]. *)
Definition reads_as (r : element) (i : issue) : Prop := parse_row r = Ok i.

(** Two rows with the same first five child nodes. *)
Definition same_five (r1 r2 : element) : Prop :=
  firstn 5 (children r1) = firstn 5 (children r2).

(** The shapes of the fields that the format accepts. *)
Definition digits (u : list ascii) : Prop :=
  Forall (fun c => is_digit c = true) u.

(** One or two digits. *)
Definition short_number (u : list ascii) : Prop :=
  (List.length u = 1%nat \/ List.length u = 2%nat) /\ digits u.

(** One or two digits, or a space and a digit. *)
Definition day_number (u : list ascii) : Prop :=
  short_number u \/ exists c, u = [" "%char; c] /\ is_digit c = true.

(** A run of white space, not empty. *)
Definition white (w : list ascii) : Prop :=
  w <> [] /\ Forall (fun c => is_space c = true) w.

(** [s] is made of the five fields of [dt], in the shapes above:
    day/month/year, white space, hour:minute. *)
Definition accepted (s : string) (dt : datetime) : Prop :=
  exists D M Y W H N,
    list_ascii_of_string s
    = D ++ "/"%char :: M ++ "/"%char :: Y ++ W ++ H ++ ":"%char :: N
    /\ day_number D /\ py_int D = Some (day dt)
    /\ short_number M /\ py_int M = Some (month dt)
    /\ List.length Y = 4%nat /\ digits Y /\ py_int Y = Some (year dt)
    /\ white W
    /\ short_number H /\ py_int H = Some (hour dt)
    /\ short_number N /\ py_int N = Some (minute dt).

(** Modelled from the spec: [date_to_fixed_string], the rendering of a
    date-time in the fixed format DD/MM/YYYY HH:MM (two digits for day,
    month, hour and minute, four for the year), which the specification
    names in its round-trip property and the program does not define. *)
Definition date_to_fixed_string (dt : datetime) : string :=
  string_of_list_ascii
    (fixed_digits 2 (day dt) ++ "/"%char :: fixed_digits 2 (month dt)
     ++ "/"%char :: fixed_digits 4 (year dt) ++ " "%char
     :: fixed_digits 2 (hour dt) ++ ":"%char :: fixed_digits 2 (minute dt)).

(** The ten digits. *)
Definition ten_digits : list ascii :=
  ["0"; "1"; "2"; "3"; "4"; "5"; "6"; "7"; "8"; "9"]%char.

(** ** Sample documents *)

Definition cell (s : string) : element := Element "td" [] (Some s) None [].

Definition tr (cells : list element) : element :=
  Element "tr" [] None None cells.

Definition table (g : string) (rows : list element) : element :=
  Element "table" [("id", g)] None None [Element "tbody" [] None None rows].

Definition page (tables : list element) : element :=
  Element "html" [] None None [Element "body" [] None None tables].

Definition sample_today : date := mkdate 2018 6 10.

Definition row5 (ty ref st en co : string) : element :=
  tr [cell ty; cell ref; cell st; cell en; cell co].

(** One current outage, today from 08:00 to 18:00. *)
Definition doc_current : element :=
  page [table (gridname 0)
          [row5 "Fault" "CR12345" "10/06/2018 08:00" "10/06/2018 18:00" "X1"]].

(** A current outage that starts two days after [sample_today]. *)
Definition doc_two_days_ahead : element :=
  page [table (gridname 0)
          [row5 "Fault" "CR20000" "12/06/2018 08:00" "12/06/2018 18:00" "X2"]].

(** A planned outage that starts tomorrow and ended yesterday. *)
Definition row_backwards : element :=
  row5 "Work" "PW30000" "11/06/2018 09:00" "09/06/2018 17:00" "Y3".

Definition doc_backwards : element :=
  page [table (gridname 1) [row_backwards]].

(** A row of four cells in the current table; no past table. *)
Definition row_short : element :=
  tr [cell "Fault"; cell "CR40000"; cell "10/06/2018 08:00";
      cell "10/06/2018 18:00"].

Definition doc_short : element :=
  page [table (gridname 0) [row_short]; table (gridname 1) []].

(** All three tables, one row each, the past one out of the window. *)
Definition doc_three : element :=
  page [table (gridname 0)
          [row5 "Fault" "CR50000" "10/06/2018 08:00" "10/06/2018 18:00" "A"];
        table (gridname 1)
          [row5 "Work" "PW50001" "11/06/2018 01:00" "11/06/2018 05:00" "B"];
        table (gridname 2)
          [row5 "Fault" "CR50002" "01/06/2018 01:00" "02/06/2018 05:00" "C"]].

(** An outage of today, listed in the past table. *)
Definition doc_past_today : element :=
  page [table (gridname 2)
          [row5 "Fault" "CR60000" "10/06/2018 08:00" "10/06/2018 18:00" "Z"]].

(** [doc_current] with further cells after the fifth, in two ways. *)
Definition doc_wide_1 : element :=
  page [table (gridname 0)
          [tr [cell "Fault"; cell "CR12345"; cell "10/06/2018 08:00";
               cell "10/06/2018 18:00"; cell "X1"; cell "more"]]].

Definition doc_wide_2 : element :=
  page [table (gridname 0)
          [tr [cell "Fault"; cell "CR12345"; cell "10/06/2018 08:00";
               cell "10/06/2018 18:00"; cell "X1"; cell "other";
               cell "01/01/2000 00:00"]]].

(** The cells of a row: its child elements, comments left out. *)
Definition is_cell (e : element) : bool :=
  match e with
  | Element _ _ _ _ _ => true
  | Comment _ _ => false
  end.

Definition cells (row : element) : list element :=
  filter is_cell (children row).



(** The five cells of the row of [doc_current]. *)
Definition five_cells : list element :=
  [cell "Fault"; cell "CR12345"; cell "10/06/2018 08:00";
   cell "10/06/2018 18:00"; cell "X1"].

(** A cell that holds a table of its own, with one row of one cell. *)
Definition cell_with_table : element :=
  Element "td" [] None None
    [Element "table" [] None None
       [Element "tbody" [] None None [tr [cell "inner"]]]].

(** [doc_current] with [cell_with_table] as the sixth cell of its row. *)
Definition doc_nested : element :=
  page [table (gridname 0) [tr (five_cells ++ [cell_with_table])]].

(** A reference cell with a comment in the middle of its text. *)
Definition cell_with_comment : element :=
  Element "td" [] (Some "CR") None [Comment "x" (Some "123")].

(** ** Further reference notions *)

(** The number of elements of a tree that have tag [t]. *)
Fixpoint count_tag (t : string) (e : element) : nat :=
  match e with
  | Element t' _ _ _ cs =>
      ((if String.eqb t' t then 1 else 0)
       + list_sum (map (count_tag t) cs))%nat
  | Comment _ _ => 0%nat
  end.

(** Some element of the tree has tag [t]. *)
Fixpoint has_tag (t : string) (e : element) : bool :=
  match e with
  | Element t' _ _ _ cs => (String.eqb t' t || existsb (has_tag t) cs)%bool
  | Comment _ _ => false
  end.

(** The rows of the three tables in the order the loops read them: past,
    planned, current. *)
Definition reading_order (tree : element) : list element :=
  xpath_rows (gridname 2) tree ++ xpath_rows (gridname 1) tree
  ++ xpath_rows (gridname 0) tree.

(** A date-time that exists and has neither seconds nor microseconds. *)
Definition to_the_minute (dt : datetime) : Prop :=
  valid_datetime dt = true /\ second dt = 0 /\ microsecond dt = 0.

(** A date that the [date] constructor accepts. *)
Definition valid_date (d : date) : bool :=
  check_date_fields (d_year d) (d_month d) (d_day d).

(** [a <= b] on dates: [date.__le__] compares (year, month, day). *)
Definition date_le (a b : date) : bool :=
  (d_year a <? d_year b)
  || ((d_year a =? d_year b)
      && ((d_month a <? d_month b)
          || ((d_month a =? d_month b) && (d_day a <=? d_day b)))).

(** A number below 100 written without padding. *)
Definition unpadded (n : Z) : list ascii :=
  if n <? 10 then [digit_char n] else fixed_digits 2 n.

(** A date-time written as D/M/YYYY H:M, day, month, hour and minute
    without zero padding. *)
Definition date_to_short_string (dt : datetime) : string :=
  string_of_list_ascii
    (unpadded (day dt) ++ "/"%char :: unpadded (month dt)
     ++ "/"%char :: fixed_digits 4 (year dt) ++ " "%char
     :: unpadded (hour dt) ++ ":"%char :: unpadded (minute dt)).

(** A row of three cells whose start date cannot be read, and a page that
    has it in its planned table, after a short row in the current one. *)
Definition row_bad_date : element :=
  tr [cell "Work"; cell "PW70000"; cell "tomorrow"].

Definition doc_two_errors : element :=
  page [table (gridname 0) [row_short]; table (gridname 1) [row_bad_date]].

(** A table whose rows are not inside a [tbody]. *)
Definition doc_no_tbody : element :=
  page [Element "table" [("id", gridname 0)] None None
          [row5 "Fault" "CR12345" "10/06/2018 08:00" "10/06/2018 18:00"
             "X1"]].

(** ** Properties of the loops *)

Lemma bind_ok {A B : Type} (m : result A) (f : A -> result B) (b : B) :
  bind m f = Ok b -> exists a, m = Ok a /\ f a = Ok b.
Proof.
  destruct m as [a|e]; simpl; intros H; [eauto | discriminate].
Qed.

Lemma td_lt_days (n m : Z) :
  td_lt (timedelta_days n) (timedelta_days m) = (n <? m).
Proof.
  unfold td_lt, timedelta_days; simpl.
  destruct (n <? m), (n =? m); reflexivity.
Qed.

Lemma in_window_near (today : date) (i : issue) :
  in_window today i = near today i.
Proof.
  unfold in_window, near, date_sub, time_gap.
  now rewrite !td_lt_days.
Qed.

Lemma append_at_extend (k : nat) (x : issue) (issues : list (list issue)) :
  (k < List.length issues)%nat ->
  append_at k x issues = Ok (extend k [x] issues).
Proof.
  revert k; induction issues as [|b bs IH]; intros k Hk; simpl in *.
  - lia.
  - destruct k as [|k']; [reflexivity|].
    rewrite IH by lia. reflexivity.
Qed.

Lemma extend_length (k : nat) (l : list issue) (issues : list (list issue)) :
  List.length (extend k l issues) = List.length issues.
Proof.
  revert k; induction issues as [|b bs IH]; intros [|k']; simpl; auto.
Qed.

Lemma extend_nil (k : nat) (issues : list (list issue)) :
  extend k [] issues = issues.
Proof.
  revert k; induction issues as [|b bs IH]; intros [|k']; simpl; auto.
  - now rewrite app_nil_r.
  - now rewrite IH.
Qed.

Lemma extend_extend (k : nat) (l1 l2 : list issue)
    (issues : list (list issue)) :
  extend k l2 (extend k l1 issues) = extend k (l1 ++ l2) issues.
Proof.
  revert k; induction issues as [|b bs IH]; intros [|k']; simpl; auto.
  - now rewrite app_assoc.
  - now rewrite IH.
Qed.

(** A loop reads every row, and adds the records that pass the test to
    list [k], in row order. *)
Lemma loop_spec (today : date) (k : nat) (rows : list element) :
  forall issues, (k < List.length issues)%nat ->
  loop today k rows issues =
  (recs <- parse_rows rows ;;
   Ok (extend k (filter (in_window today) recs) issues)).
Proof.
  induction rows as [|row rows IH]; intros issues Hk; simpl.
  - now rewrite extend_nil.
  - destruct (parse_row row) as [i|e]; simpl; [|reflexivity].
    destruct (in_window today i) eqn:Hw.
    + rewrite append_at_extend by assumption. simpl.
      rewrite IH by (rewrite extend_length; assumption).
      destruct (parse_rows rows) as [recs|e]; simpl; [|reflexivity].
      rewrite extend_extend, Hw. reflexivity.
    + simpl. rewrite IH by assumption.
      destruct (parse_rows rows) as [recs|e]; simpl; [|reflexivity].
      rewrite Hw. reflexivity.
Qed.

(** [parse_page] reads the past, the planned and the current table, in this
    order, and returns their filtered records as [current; planned; past]. *)
Lemma parse_page_spec (today : date) (tree : element) :
  parse_page today tree =
  (past <- parse_rows (xpath_rows (gridname 2) tree) ;;
   planned <- parse_rows (xpath_rows (gridname 1) tree) ;;
   current <- parse_rows (xpath_rows (gridname 0) tree) ;;
   Ok [filter (in_window today) current;
       filter (in_window today) planned;
       filter (in_window today) past]).
Proof.
  unfold parse_page.
  rewrite loop_spec by (simpl; lia).
  destruct (parse_rows (xpath_rows (gridname 2) tree)) as [past|e];
    cbn [bind extend app]; [|reflexivity].
  rewrite loop_spec by (simpl; lia).
  destruct (parse_rows (xpath_rows (gridname 1) tree)) as [planned|e];
    cbn [bind extend app]; [|reflexivity].
  rewrite loop_spec by (simpl; lia).
  destruct (parse_rows (xpath_rows (gridname 0) tree)) as [current|e];
    cbn [bind extend app]; reflexivity.
Qed.

Lemma parse_rows_reads (rows : list element) (recs : list issue) :
  parse_rows rows = Ok recs <-> Forall2 reads_as rows recs.
Proof.
  revert recs; induction rows as [|r rows IH]; intros recs; simpl.
  - split.
    + intros H; injection H as <-; constructor.
    + intros H; inversion H; reflexivity.
  - split.
    + intros H. apply bind_ok in H as (i & Hi & H).
      apply bind_ok in H as (l & Hl & H). injection H as <-.
      constructor; [exact Hi | now apply IH].
    + intros H. inversion H as [|r' i rows' l Hi Hl]; subst.
      unfold reads_as in Hi. rewrite Hi; simpl.
      apply IH in Hl. rewrite Hl; reflexivity.
Qed.

Lemma parse_rows_ok (rows : list element) :
  (forall r, In r rows -> is_ok (parse_row r) = true) ->
  exists recs, parse_rows rows = Ok recs.
Proof.
  induction rows as [|r rows IH]; intros H; simpl.
  - eauto.
  - destruct (parse_row r) as [i|e] eqn:Hr.
    + destruct IH as [recs Hrecs]; [intros; apply H; now right|].
      rewrite Hrecs; simpl; eauto.
    + specialize (H r (or_introl eq_refl)). rewrite Hr in H. discriminate.
Qed.

Lemma parse_rows_err (rows : list element) (r : element) :
  In r rows -> is_ok (parse_row r) = false ->
  is_ok (parse_rows rows) = false.
Proof.
  induction rows as [|r' rows IH]; intros Hin Hr; simpl in *; [tauto|].
  destruct Hin as [->|Hin].
  - destruct (parse_row r); [discriminate | reflexivity].
  - destruct (parse_row r'); simpl; [|reflexivity].
    specialize (IH Hin Hr).
    destruct (parse_rows rows); simpl; [discriminate | reflexivity].
Qed.

(** No error comes from the filter: the page is read without error exactly
    when every row of the three tables is. *)
Lemma parse_page_ok_iff (today : date) (tree : element) :
  is_ok (parse_page today tree) = true <->
  (forall k r, (k < 3)%nat -> In r (xpath_rows (gridname k) tree) ->
     is_ok (parse_row r) = true).
Proof.
  rewrite parse_page_spec. split.
  - intros H k r Hk Hr.
    destruct (is_ok (parse_row r)) eqn:E; [reflexivity|].
    assert (Hbad : is_ok (parse_rows (xpath_rows (gridname k) tree)) = false)
      by (eapply parse_rows_err; eauto).
    destruct k as [|[|[|k]]]; [| | |lia];
      repeat match goal with
             | H : context [parse_rows ?l] |- _ =>
                 destruct (parse_rows l); cbn [bind is_ok] in *
             end; congruence.
  - intros H.
    destruct (parse_rows_ok (xpath_rows (gridname 2) tree)) as [q ->];
      [intros; apply (H 2%nat); auto|].
    destruct (parse_rows_ok (xpath_rows (gridname 1) tree)) as [p ->];
      [intros; apply (H 1%nat); auto|].
    destruct (parse_rows_ok (xpath_rows (gridname 0) tree)) as [c ->];
      [intros; apply (H 0%nat); auto|].
    reflexivity.
Qed.

(** The three lists of a result, as the records of the three tables. *)
Lemma parse_page_buckets (today : date) (tree : element)
    (issues : list (list issue)) :
  parse_page today tree = Ok issues ->
  exists rc rp rq,
    Forall2 reads_as (xpath_rows (gridname 0) tree) rc /\
    Forall2 reads_as (xpath_rows (gridname 1) tree) rp /\
    Forall2 reads_as (xpath_rows (gridname 2) tree) rq /\
    issues = [filter (in_window today) rc; filter (in_window today) rp;
              filter (in_window today) rq].
Proof.
  rewrite parse_page_spec. intros H.
  apply bind_ok in H as (rq & Hq & H).
  apply bind_ok in H as (rp & Hp & H).
  apply bind_ok in H as (rc & Hc & H).
  injection H as <-.
  exists rc, rp, rq. rewrite <- !parse_rows_reads. auto.
Qed.

Lemma parse_page_bucket (today : date) (tree : element)
    (issues : list (list issue)) (k : nat) :
  parse_page today tree = Ok issues -> (k < 3)%nat ->
  exists recs,
    Forall2 reads_as (xpath_rows (gridname k) tree) recs /\
    nth k issues [] = filter (in_window today) recs.
Proof.
  intros H Hk. apply parse_page_buckets in H as (rc & rp & rq & Hc & Hp & Hq & ->).
  destruct k as [|[|[|k]]]; [exists rc | exists rp | exists rq | lia]; auto.
Qed.

Lemma filter_ext_in_window (today : date) (l : list issue) :
  filter (in_window today) l = filter (near today) l.
Proof. apply filter_ext. intros; apply in_window_near. Qed.

Lemma Forall2_reads_in (rows : list element) (recs : list issue)
    (r : element) (i : issue) :
  Forall2 reads_as rows recs -> In r rows -> reads_as r i -> In i recs.
Proof.
  induction 1 as [|r' i' rows recs Hr Hrest IH]; simpl; [tauto|].
  intros [->|Hin] Hi.
  - left. unfold reads_as in *. congruence.
  - right. auto.
Qed.

(** ** The recency filter *)

(** C1. When the page is read, the list of each table holds exactly the
    records of its rows for which (start.date() - today) is below 2 days
    and (today - end.date()) is below 2 days, both strictly and on calendar
    days; the other rows are left out, and leaving rows out never raises:
    the page is read without error as soon as every row is. *)
Theorem recency_filter_exact (today : date) (tree : element) :
  ((forall k r, (k < 3)%nat -> In r (xpath_rows (gridname k) tree) ->
      is_ok (parse_row r) = true) ->
   is_ok (parse_page today tree) = true) /\
  (forall issues, parse_page today tree = Ok issues ->
   forall k, (k < 3)%nat ->
   exists recs,
     Forall2 reads_as (xpath_rows (gridname k) tree) recs /\
     nth k issues [] =
     filter (fun i =>
               (toordinal (date_of (start i)) - toordinal today <? 2)
               && (toordinal today - toordinal (date_of (end_ i)) <? 2))%bool
            recs).
Proof.
  split.
  - intros H. now apply parse_page_ok_iff.
  - intros issues H k Hk.
    destruct (parse_page_bucket _ _ _ _ H Hk) as (recs & Hrecs & Hnth).
    exists recs. split; [exact Hrecs|].
    rewrite Hnth. apply filter_ext_in_window.
Qed.

Lemma recency_filter_exact_witness :
  is_ok (parse_page sample_today doc_three) = true /\
  exists recs,
    Forall2 reads_as (xpath_rows (gridname 2) doc_three) recs /\
    nth 2 [[mkissue (Some "Fault") "CR50000"
              (mkdatetime 2018 6 10 8 0 0 0) (mkdatetime 2018 6 10 18 0 0 0)
              (Some "A")];
           [mkissue (Some "Work") "PW50001"
              (mkdatetime 2018 6 11 1 0 0 0) (mkdatetime 2018 6 11 5 0 0 0)
              (Some "B")];
           []] [] =
    filter (fun i =>
              (toordinal (date_of (start i)) - toordinal sample_today <? 2)
              && (toordinal sample_today - toordinal (date_of (end_ i)) <? 2))%bool
           recs.
Proof.
  split.
  - apply (proj1 (recency_filter_exact sample_today doc_three)).
    intros k r Hk Hr.
    destruct k as [|[|[|k]]]; [| | |lia];
      vm_compute in Hr; destruct Hr as [<-|[]]; reflexivity.
  - apply (proj2 (recency_filter_exact sample_today doc_three)).
    + reflexivity.
    + lia.
Defined.

(** C6. A row whose start is the day after today and whose end is the day
    before today passes the test, and its record is in the list of its
    table. *)
Theorem end_before_start_retained (today : date) (tree : element)
    (issues : list (list issue)) (k : nat) (r : element) (i : issue) :
  parse_page today tree = Ok issues ->
  (k < 3)%nat ->
  In r (xpath_rows (gridname k) tree) ->
  parse_row r = Ok i ->
  plus_days today 1 (date_of (start i)) ->
  plus_days today (-1) (date_of (end_ i)) ->
  in_window today i = true /\ In i (nth k issues []).
Proof.
  intros H Hk Hr Hi Hs He.
  assert (Hw : in_window today i = true).
  { rewrite in_window_near. unfold near, plus_days in *.
    rewrite Hs, He. apply andb_true_intro; split; apply Z.ltb_lt; lia. }
  split; [exact Hw|].
  destruct (parse_page_bucket _ _ _ _ H Hk) as (recs & Hrecs & ->).
  apply filter_In. split; [|exact Hw].
  eapply Forall2_reads_in; eauto.
Qed.

Lemma end_before_start_retained_witness :
  in_window sample_today
    (mkissue (Some "Work") "PW30000" (mkdatetime 2018 6 11 9 0 0 0)
       (mkdatetime 2018 6 9 17 0 0 0) (Some "Y3")) = true /\
  In (mkissue (Some "Work") "PW30000" (mkdatetime 2018 6 11 9 0 0 0)
        (mkdatetime 2018 6 9 17 0 0 0) (Some "Y3"))
     (nth 1 [[]; [mkissue (Some "Work") "PW30000"
                    (mkdatetime 2018 6 11 9 0 0 0)
                    (mkdatetime 2018 6 9 17 0 0 0) (Some "Y3")]; []] []).
Proof.
  apply (end_before_start_retained sample_today doc_backwards _ 1 row_backwards).
  - reflexivity.
  - lia.
  - left. reflexivity.
  - reflexivity.
  - reflexivity.
  - reflexivity.
Defined.

(** ** Lists and tables *)

(** C3. The result has three lists, current, planned and past; each holds
    the retained records of the rows of its own table, whatever their
    dates, in the order of the rows; so each retained record is in one list,
    and the three lists together have as many records as there are retained
    rows. *)
Theorem buckets_follow_tables (today : date) (tree : element)
    (issues : list (list issue)) :
  parse_page today tree = Ok issues ->
  exists rc rp rq,
    Forall2 reads_as (xpath_rows (gridname 0) tree) rc /\
    Forall2 reads_as (xpath_rows (gridname 1) tree) rp /\
    Forall2 reads_as (xpath_rows (gridname 2) tree) rq /\
    issues = [filter (in_window today) rc; filter (in_window today) rp;
              filter (in_window today) rq] /\
    List.length (List.concat issues) =
    List.length (filter (in_window today) (rc ++ rp ++ rq)).
Proof.
  intros H.
  destruct (parse_page_buckets _ _ _ H) as (rc & rp & rq & Hc & Hp & Hq & ->).
  exists rc, rp, rq. repeat split; auto.
  simpl. rewrite app_nil_r, !filter_app. reflexivity.
Qed.

(** A row of the past table stays in the past list when its dates are
    today's. *)
Example past_table_row_of_today :
  parse_page sample_today doc_past_today
  = Ok [[]; [];
        [mkissue (Some "Fault") "CR60000" (mkdatetime 2018 6 10 8 0 0 0)
           (mkdatetime 2018 6 10 18 0 0 0) (Some "Z")]].
Proof. reflexivity. Qed.

Lemma buckets_follow_tables_witness :
  exists rc rp rq,
    Forall2 reads_as (xpath_rows (gridname 0) doc_three) rc /\
    Forall2 reads_as (xpath_rows (gridname 1) doc_three) rp /\
    Forall2 reads_as (xpath_rows (gridname 2) doc_three) rq /\
    [[mkissue (Some "Fault") "CR50000"
        (mkdatetime 2018 6 10 8 0 0 0) (mkdatetime 2018 6 10 18 0 0 0)
        (Some "A")];
     [mkissue (Some "Work") "PW50001"
        (mkdatetime 2018 6 11 1 0 0 0) (mkdatetime 2018 6 11 5 0 0 0)
        (Some "B")];
     []] =
    [filter (in_window sample_today) rc; filter (in_window sample_today) rp;
     filter (in_window sample_today) rq] /\
    List.length
      (List.concat [[mkissue (Some "Fault") "CR50000"
                  (mkdatetime 2018 6 10 8 0 0 0)
                  (mkdatetime 2018 6 10 18 0 0 0) (Some "A")];
               [mkissue (Some "Work") "PW50001"
                  (mkdatetime 2018 6 11 1 0 0 0)
                  (mkdatetime 2018 6 11 5 0 0 0) (Some "B")];
               []]) =
    List.length (filter (in_window sample_today) (rc ++ rp ++ rq)).
Proof.
  apply (buckets_follow_tables sample_today doc_three). reflexivity.
Defined.

(** ** Rows that cannot be read *)






Example doc_short_index_error :
  parse_page sample_today doc_short = Err IndexError.
Proof. reflexivity. Qed.

(** ** Cells after the fifth *)

Lemma getitem_same_five (r1 r2 : element) (n : nat) :
  same_five r1 r2 -> (n < 5)%nat -> getitem r1 n = getitem r2 n.
Proof.
  intros H Hn. unfold getitem.
  assert (E : forall r, nth_error (children r) n
                        = nth_error (firstn 5 (children r)) n).
  { intros r. rewrite nth_error_firstn.
    destruct (Nat.ltb_spec n 5); [reflexivity | lia]. }
  rewrite (E r1), (E r2), H. reflexivity.
Qed.

Lemma parse_row_same_five (r1 r2 : element) :
  same_five r1 r2 -> parse_row r1 = parse_row r2.
Proof.
  intros H. unfold parse_row.
  rewrite !(getitem_same_five r1 r2) by (auto; lia). reflexivity.
Qed.

Lemma parse_rows_same_five (l1 l2 : list element) :
  Forall2 same_five l1 l2 -> parse_rows l1 = parse_rows l2.
Proof.
  induction 1 as [|r1 r2 l1 l2 Hr Hl IH]; simpl; [reflexivity|].
  rewrite (parse_row_same_five r1 r2 Hr), IH. reflexivity.
Qed.

(** C10, as the code has it.  Of a selected row only the first five child
    nodes are read: two pages for which the path selects, for each of the
    three tables, rows that correspond one to one and have the same first
    five child nodes give the same result on the same day, whatever the
    child nodes after the fifth hold. *)
Theorem later_cells_ignored (today : date) (t1 t2 : element) :
  (forall k, (k < 3)%nat ->
     Forall2 same_five (xpath_rows (gridname k) t1)
       (xpath_rows (gridname k) t2)) ->
  parse_page today t1 = parse_page today t2.
Proof.
  intros H. rewrite !parse_page_spec.
  rewrite (parse_rows_same_five _ _ (H 0%nat ltac:(lia))).
  rewrite (parse_rows_same_five _ _ (H 1%nat ltac:(lia))).
  rewrite (parse_rows_same_five _ _ (H 2%nat ltac:(lia))).
  reflexivity.
Qed.

Lemma later_cells_ignored_witness :
  parse_page sample_today doc_wide_1 = parse_page sample_today doc_wide_2.
Proof.
  apply (later_cells_ignored sample_today doc_wide_1 doc_wide_2).
  intros k Hk.
  destruct k as [|[|[|k]]]; [| | |lia]; vm_compute; repeat constructor.
Defined.

(** C10 as stated fails: [doc_wide_1] and [doc_nested] have one table with
    one row, the same first five cells, and differ in the sixth cell only;
    the sixth cell of [doc_nested] holds a table whose row the path selects
    too, and that row cannot be read. *)
Lemma later_cell_with_nested_row :
  doc_wide_1 = page [table (gridname 0) [tr (five_cells ++ [cell "more"])]] /\
  doc_nested
  = page [table (gridname 0) [tr (five_cells ++ [cell_with_table])]] /\
  parse_page sample_today doc_wide_1
  = Ok [[mkissue (Some "Fault") "CR12345" (mkdatetime 2018 6 10 8 0 0 0)
           (mkdatetime 2018 6 10 18 0 0 0) (Some "X1")]; []; []] /\
  parse_page sample_today doc_nested = Err IndexError.
Proof. repeat split. Qed.

Example nested_row_is_selected :
  xpath_rows (gridname 0) doc_nested
  = [tr (five_cells ++ [cell_with_table]); tr [cell "inner"]].
Proof. reflexivity. Qed.

Example text_content_skips_comment :
  text_content cell_with_comment = "CR123".
Proof. reflexivity. Qed.

Example text_content_of_comment :
  text_content (Comment "x" (Some "123")) = "x".
Proof. reflexivity. Qed.

(** ** The window, in days *)

Lemma near_bounds (today : date) (i : issue) :
  near today i =
  ((toordinal (date_of (start i)) <=? toordinal today + 1)
   && (toordinal today - 1 <=? toordinal (date_of (end_ i))))%bool.
Proof.
  unfold near. f_equal.
  - destruct (Z.ltb_spec (toordinal (date_of (start i)) - toordinal today) 2),
      (Z.leb_spec (toordinal (date_of (start i))) (toordinal today + 1));
      (reflexivity || lia).
  - destruct (Z.ltb_spec (toordinal today - toordinal (date_of (end_ i))) 2),
      (Z.leb_spec (toordinal today - 1) (toordinal (date_of (end_ i))));
      (reflexivity || lia).
Qed.

(** C2, as the code has it.  The lists hold exactly the records whose start
    day is at most today + 1 day and whose end day is at least
    today - 1 day.  A record that starts on today + 1 day and ends no
    earlier than today - 1 day is kept; one that starts on today + 2 days
    is not. *)
Theorem window_is_one_day_each_side (today : date) (tree : element)
    (issues : list (list issue)) (k : nat) :
  parse_page today tree = Ok issues ->
  (k < 3)%nat ->
  exists recs,
    Forall2 reads_as (xpath_rows (gridname k) tree) recs /\
    nth k issues [] =
    filter (fun i =>
              (toordinal (date_of (start i)) <=? toordinal today + 1)
              && (toordinal today - 1 <=? toordinal (date_of (end_ i))))%bool
           recs /\
    (forall i, In i recs ->
       plus_days today 1 (date_of (start i)) ->
       toordinal today - 1 <= toordinal (date_of (end_ i)) ->
       In i (nth k issues [])) /\
    (forall i, In i recs ->
       plus_days today 2 (date_of (start i)) ->
       ~ In i (nth k issues [])).
Proof.
  intros H Hk.
  destruct (parse_page_bucket _ _ _ _ H Hk) as (recs & Hrecs & Hnth).
  exists recs. split; [exact Hrecs|].
  assert (E : nth k issues [] =
              filter (fun i =>
                (toordinal (date_of (start i)) <=? toordinal today + 1)
                && (toordinal today - 1 <=? toordinal (date_of (end_ i))))%bool
                recs).
  { rewrite Hnth, filter_ext_in_window. apply filter_ext.
    intros; apply near_bounds. }
  split; [exact E|]. rewrite E. unfold plus_days. split.
  - intros i Hi Hs He. apply filter_In. split; [exact Hi|].
    apply andb_true_intro; split; apply Z.leb_le; lia.
  - intros i Hi Hs Hin. apply filter_In in Hin as [_ Hin].
    apply andb_prop in Hin as [Hin _]. apply Z.leb_le in Hin. lia.
Qed.

Lemma window_is_one_day_each_side_witness :
  exists recs,
    Forall2 reads_as (xpath_rows (gridname 0) doc_two_days_ahead) recs /\
    nth 0 [[]; []; []] [] =
    filter (fun i =>
              (toordinal (date_of (start i)) <=? toordinal sample_today + 1)
              && (toordinal sample_today - 1
                  <=? toordinal (date_of (end_ i))))%bool
           recs /\
    (forall i, In i recs ->
       plus_days sample_today 1 (date_of (start i)) ->
       toordinal sample_today - 1 <= toordinal (date_of (end_ i)) ->
       In i (nth 0 [[]; []; []] [])) /\
    (forall i, In i recs ->
       plus_days sample_today 2 (date_of (start i)) ->
       ~ In i (nth 0 [[]; []; []] [])).
Proof.
  apply (window_is_one_day_each_side sample_today doc_two_days_ahead).
  - reflexivity.
  - lia.
Defined.

(** C2 as stated fails: the row of [doc_two_days_ahead] starts on
    today + 2 days and ends after today - 2 days, and it is not kept. *)
Lemma start_two_days_ahead_dropped :
  let i := mkissue (Some "Fault") "CR20000" (mkdatetime 2018 6 12 8 0 0 0)
             (mkdatetime 2018 6 12 18 0 0 0) (Some "X2") in
  xpath_rows (gridname 0) doc_two_days_ahead
  = [row5 "Fault" "CR20000" "12/06/2018 08:00" "12/06/2018 18:00" "X2"] /\
  parse_row (row5 "Fault" "CR20000" "12/06/2018 08:00" "12/06/2018 18:00" "X2")
  = Ok i /\
  plus_days sample_today 2 (date_of (start i)) /\
  toordinal sample_today - 2 <= toordinal (date_of (end_ i)) /\
  in_window sample_today i = false /\
  parse_page sample_today doc_two_days_ahead = Ok [[]; []; []].
Proof.
  cbv zeta. repeat split; vm_compute; congruence.
Qed.

(** ** Tables that are missing or empty *)

Lemma element_forall_ind (P : element -> Prop) :
  (forall t a tx tl cs, Forall P cs -> P (Element t a tx tl cs)) ->
  (forall t tl, P (Comment t tl)) ->
  forall e, P e.
Proof.
  intros H HC. fix IH 1. intros [t a tx tl cs | t tl]; [|apply HC].
  apply H.
  induction cs as [|c cs IHcs]; constructor; [apply IH | exact IHcs].
Qed.






(** A page without a past table, and with a planned table without rows,
    that is not read: the exception is that of the short row of its
    current table. *)
Example doc_short_error_is_of_current_row :
  has_table (gridname 2) doc_short = false /\
  xpath_rows (gridname 1) doc_short = [] /\
  parse_page sample_today doc_short = Err IndexError /\
  parse_row row_short = Err IndexError.
Proof. repeat split. Qed.

(** ** The matcher *)

Lemma star_sound {A : Type} (p : ascii -> bool) (s : list ascii)
    (k : list ascii -> option A) (x : A) :
  star p s k = Some x ->
  exists u rest,
    s = u ++ rest /\ Forall (fun c => p c = true) u /\ k rest = Some x.
Proof.
  induction s as [|c s IH]; simpl; intros H.
  - exists [], []. auto.
  - destruct (p c) eqn:Hp.
    + destruct (star p s k) as [y|] eqn:Hs.
      * injection H as ->.
        destruct (IH eq_refl) as (u & rest & -> & Hu & Hk).
        exists (c :: u), rest. auto.
      * exists [], (c :: s). auto.
    + exists [], (c :: s). auto.
Qed.

(** What the matcher accepts is a word of the expression followed by a
    rest that the continuation accepts. *)
Lemma rmatch_sound {A : Type} (r : re) :
  forall (s : list ascii) (k : list ascii -> option A) (x : A),
  rmatch r s k = Some x ->
  exists u rest, s = u ++ rest /\ lang r u /\ k rest = Some x.
Proof.
  induction r as [c|p|r1 IH1 r2 IH2|r1 IH1 r2 IH2|p]; intros s k x H;
    simpl in H.
  - destruct s as [|c' s]; [discriminate|].
    destruct (Ascii.eqb_spec c c') as [<-|]; [|discriminate].
    exists [c], s. repeat split; [constructor | exact H].
  - destruct s as [|c' s]; [discriminate|].
    destruct (p c') eqn:Hp; [|discriminate].
    exists [c'], s. repeat split; [now constructor | exact H].
  - apply IH1 in H as (u & rest & -> & Hu & H).
    apply IH2 in H as (v & rest' & -> & Hv & H).
    exists (u ++ v), rest'. rewrite app_assoc.
    repeat split; [now constructor | exact H].
  - destruct (rmatch r1 s k) as [y|] eqn:E.
    + injection H as ->. apply IH1 in E as (u & rest & -> & Hu & H).
      exists u, rest. repeat split; [now apply lang_alt_l | exact H].
    + apply IH2 in H as (u & rest & -> & Hu & H).
      exists u, rest. repeat split; [now apply lang_alt_r | exact H].
  - destruct s as [|c' s]; [discriminate|].
    destruct (p c') eqn:Hp; [|discriminate].
    apply star_sound in H as (u & rest & -> & Hu & H).
    exists (c' :: u), rest. repeat split; [now constructor | exact H].
Qed.

Lemma consumed_app (u rest : list ascii) : consumed (u ++ rest) rest = u.
Proof.
  unfold consumed. rewrite length_app.
  replace (List.length u + List.length rest - List.length rest)%nat
    with (List.length u) by lia.
  rewrite firstn_app, Nat.sub_diag, firstn_all. simpl. apply app_nil_r.
Qed.

(** A match of the format cuts the data into its five fields. *)
Lemma match_format_sound (s rest : list ascii) (found : found_dict) :
  match_items format s [] = Some (found, rest) ->
  exists D M Y W H N,
    s = D ++ "/"%char :: M ++ "/"%char :: Y ++ W ++ H ++ ":"%char :: N ++ rest
    /\ lang (directive_re dir_d) D
    /\ lang (directive_re dir_m) M
    /\ lang (directive_re dir_Y) Y
    /\ lang (Plus is_space) W
    /\ lang (directive_re dir_H) H
    /\ lang (directive_re dir_M) N
    /\ found = [(dir_M, N); (dir_H, H); (dir_Y, Y); (dir_m, M); (dir_d, D)].
Proof.
  unfold format. cbn [match_items]. intros H0.
  apply rmatch_sound in H0 as (D & s1 & -> & HD & H0).
  rewrite consumed_app in H0.
  apply rmatch_sound in H0 as (x1 & s2 & -> & Hx1 & H0).
  inversion Hx1; subst; clear Hx1.
  apply rmatch_sound in H0 as (M & s3 & -> & HM & H0).
  rewrite consumed_app in H0.
  apply rmatch_sound in H0 as (x2 & s4 & -> & Hx2 & H0).
  inversion Hx2; subst; clear Hx2.
  apply rmatch_sound in H0 as (Y & s5 & -> & HY & H0).
  rewrite consumed_app in H0.
  apply rmatch_sound in H0 as (W & s6 & -> & HW & H0).
  apply rmatch_sound in H0 as (H & s7 & -> & HH & H0).
  rewrite consumed_app in H0.
  apply rmatch_sound in H0 as (x3 & s8 & -> & Hx3 & H0).
  inversion Hx3; subst; clear Hx3.
  apply rmatch_sound in H0 as (N & s9 & -> & HN & H0).
  rewrite consumed_app in H0.
  injection H0 as <- <-.
  exists D, M, Y, W, H, N. simpl. repeat split; assumption.
Qed.

(** ** The fields of the format *)

Lemma is_digit_cases (c : ascii) : is_digit c = true -> In c ten_digits.
Proof.
  destruct c as [[] [] [] [] [] [] [] []]; intros H; vm_compute in H;
    try discriminate H; unfold ten_digits;
    repeat (try (left; reflexivity); right).
Qed.

Lemma range_digit (lo hi c : ascii) :
  is_digit lo = true -> is_digit hi = true ->
  in_range lo hi c = true -> is_digit c = true.
Proof.
  unfold is_digit, in_range. intros Hlo Hhi H.
  apply andb_prop in Hlo as [Hlo _]. apply andb_prop in Hhi as [_ Hhi].
  apply andb_prop in H as [H1 H2].
  apply Nat.leb_le in Hlo, Hhi, H1, H2.
  apply andb_true_intro; split; apply Nat.leb_le; lia.
Qed.

Ltac each_digit H :=
  apply is_digit_cases in H; unfold ten_digits in H; simpl in H;
  decompose [or] H; clear H; subst; try contradiction.

Ltac enum_chars :=
  repeat match goal with
         | H : is_digit ?c = true |- _ => is_var c; each_digit H
         | H : in_range ?lo ?hi ?c = true |- _ =>
             is_var c;
             let Hd := fresh "Hd" in
             pose proof (range_digit lo hi c eq_refl eq_refl H) as Hd;
             each_digit Hd; vm_compute in H; try discriminate H; clear H
         end.

Ltac inv_lang :=
  repeat match goal with
         | H : lang (Alt _ _) _ |- _ => inversion H; subst; clear H
         | H : lang (Cat _ _) _ |- _ => inversion H; subst; clear H
         | H : lang (Chr _) _ |- _ => inversion H; subst; clear H
         | H : lang (Cls _) _ |- _ => inversion H; subst; clear H
         end.

Lemma short_number_cases (u : list ascii) :
  short_number u ->
  (exists c, u = [c] /\ is_digit c = true) \/
  (exists a b, u = [a; b] /\ is_digit a = true /\ is_digit b = true).
Proof.
  intros [[Hl|Hl] Hd]; destruct u as [|a [|b [|c u]]]; try discriminate Hl.
  - left. exists a. inversion Hd; auto.
  - right. exists a, b. inversion Hd as [|? ? Ha Hb]; subst.
    inversion Hb; auto.
Qed.

Ltac shape_ok :=
  first [ left; split; [left; reflexivity | solve [repeat constructor]]
        | left; split; [right; reflexivity | solve [repeat constructor]]
        | split; [left; reflexivity | solve [repeat constructor]]
        | split; [right; reflexivity | solve [repeat constructor]] ].

Ltac value_ok := eexists; split; [vm_compute; reflexivity | lia].

Lemma lang_day (D : list ascii) :
  lang (directive_re dir_d) D ->
  day_number D /\ exists n, py_int D = Some n /\ 1 <= n <= 31.
Proof.
  unfold directive_re, rng, digit. intros H. inv_lang; simpl; enum_chars;
    (split; [first [shape_ok | right; eexists; split; reflexivity] | value_ok]).
Qed.

Lemma lang_month (M : list ascii) :
  lang (directive_re dir_m) M ->
  short_number M /\ exists n, py_int M = Some n /\ 1 <= n <= 12.
Proof.
  unfold directive_re, rng, digit. intros H. inv_lang; simpl; enum_chars;
    (split; [shape_ok | value_ok]).
Qed.

Lemma lang_hour (H : list ascii) :
  lang (directive_re dir_H) H ->
  short_number H /\ exists n, py_int H = Some n /\ 0 <= n <= 23.
Proof.
  unfold directive_re, rng, digit. intros H0. inv_lang; simpl; enum_chars;
    (split; [shape_ok | value_ok]).
Qed.

Lemma lang_minute (N : list ascii) :
  lang (directive_re dir_M) N ->
  short_number N /\ exists n, py_int N = Some n /\ 0 <= n <= 59.
Proof.
  unfold directive_re, rng, digit. intros H. inv_lang; simpl; enum_chars;
    (split; [shape_ok | value_ok]).
Qed.

Lemma digit_not_space (c : ascii) : is_digit c = true -> is_space c = false.
Proof. intros H. each_digit H; reflexivity. Qed.

Lemma lstrip_head (c : ascii) (u : list ascii) :
  is_space c = false -> lstrip (c :: u) = c :: u.
Proof. intros H. simpl. now rewrite H. Qed.

Lemma strip_digits (u : list ascii) : digits u -> strip u = u.
Proof.
  intros Hd. unfold strip.
  assert (E : forall v, digits v -> lstrip v = v).
  { intros [|c v] Hv; [reflexivity|].
    inversion Hv; subst. apply lstrip_head. now apply digit_not_space. }
  rewrite (E u Hd), E, rev_involutive; [reflexivity|].
  unfold digits in *. apply Forall_forall. intros c Hc.
  apply in_rev in Hc. revert c Hc. now apply Forall_forall.
Qed.

Lemma py_int_digits (u : list ascii) :
  u <> [] -> digits u -> py_int u = digits_value 0 u.
Proof.
  intros Hne Hd. unfold py_int. rewrite (strip_digits u Hd).
  destruct u; [contradiction | reflexivity].
Qed.

Lemma digit_val_range (c : ascii) :
  is_digit c = true -> 0 <= digit_val c <= 9.
Proof. intros H. each_digit H; vm_compute; split; discriminate. Qed.

Lemma lang_year (Y : list ascii) :
  lang (directive_re dir_Y) Y ->
  List.length Y = 4%nat /\ digits Y /\
  exists n, py_int Y = Some n /\ 0 <= n <= 9999.
Proof.
  unfold directive_re, digit. intros H. inv_lang.
  match goal with
  | Ha : is_digit ?a = true, Hb : is_digit ?b = true,
    Hc : is_digit ?c = true, Hd : is_digit ?d = true |- _ =>
      assert (HY : digits [a; b; c; d]) by (repeat constructor; assumption);
      pose proof (digit_val_range a Ha); pose proof (digit_val_range b Hb);
      pose proof (digit_val_range c Hc); pose proof (digit_val_range d Hd);
      simpl; repeat split; [exact HY|]
  end.
  rewrite py_int_digits by (discriminate || exact HY).
  cbn [digits_value].
  repeat match goal with
         | Hc : is_digit _ = true |- _ => rewrite Hc; clear Hc
         end.
  eexists; split; [reflexivity | lia].
Qed.

Lemma lang_white (W : list ascii) : lang (Plus is_space) W -> white W.
Proof.
  intros H. inversion H; subst. split; [discriminate|].
  constructor; assumption.
Qed.

(** What [strptime] returns was written in an accepted shape, and is a
    date-time that exists, to the minute. *)
Lemma strptime_sound (s : string) (dt : datetime) :
  strptime s = Ok dt ->
  accepted s dt /\ valid_datetime dt = true
  /\ second dt = 0 /\ microsecond dt = 0.
Proof.
  unfold strptime. intros H0.
  destruct (match_items format (list_ascii_of_string s) [])
    as [[found rest]|] eqn:E; [|discriminate].
  destruct rest as [|? ?]; [|discriminate].
  apply match_format_sound in E
    as (D & M & Y & W & H & N & Hs & HD & HM & HY & HW & HH & HN & ->).
  apply lang_day in HD as (SD & d & VD & RD).
  apply lang_month in HM as (SM & m & VM & RM).
  apply lang_year in HY as (LY & SY & y & VY & RY).
  apply lang_white in HW.
  apply lang_hour in HH as (SH & h & VH & RH).
  apply lang_minute in HN as (SN & mi & VN & RN).
  cbn [field lookup directive_eqb] in H0.
  rewrite VD, VM, VY, VH, VN in H0. cbn [bind] in H0.
  destruct (check_date_fields y m d) eqn:C; [|discriminate].
  injection H0 as <-. rewrite app_nil_r in Hs.
  split; [|split; [|split; reflexivity]].
  - exists D, M, Y, W, H, N. cbn [day month year hour minute].
    repeat split; try assumption; apply SD || apply SM || apply SH
      || apply SN || apply HW || idtac.
  - unfold valid_datetime, check_time_fields.
    cbn [day month year hour minute second microsecond]. rewrite C.
    cbn [andb].
    repeat (apply andb_true_intro; split); apply Z.leb_le; lia.
Qed.

(** ** The first match of a well-shaped text *)

Ltac field_cases HS :=
  apply short_number_cases in HS
    as [[?c [-> ?Hc]] | [?a [?b [-> [?Ha ?Hb]]]]].

Ltac run_field Hn Hk :=
  enum_chars; vm_compute in Hn; injection Hn as <-;
  first [ exfalso; lia | simpl; rewrite Hk; reflexivity ].

Lemma match_day {A : Type} (D rest : list ascii) (n : Z)
    (k : list ascii -> option A) (x : A) :
  day_number D -> py_int D = Some n -> 1 <= n <= 31 ->
  k ("/"%char :: rest) = Some x ->
  rmatch (directive_re dir_d) (D ++ "/"%char :: rest) k = Some x.
Proof.
  intros HD Hn Hr Hk.
  destruct HD as [HD | [c [-> Hc]]]; [field_cases HD|]; run_field Hn Hk.
Qed.

Lemma match_month {A : Type} (M rest : list ascii) (n : Z)
    (k : list ascii -> option A) (x : A) :
  short_number M -> py_int M = Some n -> 1 <= n <= 12 ->
  k ("/"%char :: rest) = Some x ->
  rmatch (directive_re dir_m) (M ++ "/"%char :: rest) k = Some x.
Proof.
  intros HM Hn Hr Hk. field_cases HM; run_field Hn Hk.
Qed.

Lemma match_hour {A : Type} (H rest : list ascii) (n : Z)
    (k : list ascii -> option A) (x : A) :
  short_number H -> py_int H = Some n -> 0 <= n <= 23 ->
  k (":"%char :: rest) = Some x ->
  rmatch (directive_re dir_H) (H ++ ":"%char :: rest) k = Some x.
Proof.
  intros HH Hn Hr Hk. field_cases HH; run_field Hn Hk.
Qed.

Lemma match_minute {A : Type} (N : list ascii) (n : Z)
    (k : list ascii -> option A) (x : A) :
  short_number N -> py_int N = Some n -> 0 <= n <= 59 ->
  k [] = Some x ->
  rmatch (directive_re dir_M) N k = Some x.
Proof.
  intros HN Hn Hr Hk. field_cases HN; run_field Hn Hk.
Qed.

Lemma match_year {A : Type} (Y rest : list ascii)
    (k : list ascii -> option A) :
  List.length Y = 4%nat -> digits Y ->
  rmatch (directive_re dir_Y) (Y ++ rest) k = k rest.
Proof.
  intros HL HY.
  destruct Y as [|a [|b [|c [|d [|e Y]]]]]; try discriminate HL.
  inversion HY as [|? ? Ha HY1]; subst.
  inversion HY1 as [|? ? Hb HY2]; subst.
  inversion HY2 as [|? ? Hc HY3]; subst.
  inversion HY3 as [|? ? Hd _]; subst.
  simpl. now rewrite Ha, Hb, Hc, Hd.
Qed.

Lemma star_spaces {A : Type} (W rest : list ascii) (c : ascii)
    (k : list ascii -> option A) (x : A) :
  Forall (fun w => is_space w = true) W -> is_space c = false ->
  k (c :: rest) = Some x ->
  star is_space (W ++ c :: rest) k = Some x.
Proof.
  intros HW Hc Hk. induction HW as [|w W Hw HW IH]; simpl.
  - now rewrite Hc.
  - now rewrite Hw, IH.
Qed.

Lemma match_white {A : Type} (W rest : list ascii) (c : ascii)
    (k : list ascii -> option A) (x : A) :
  white W -> is_space c = false -> k (c :: rest) = Some x ->
  rmatch (Plus is_space) (W ++ c :: rest) k = Some x.
Proof.
  intros [Hne HW] Hc Hk. destruct W as [|w W]; [contradiction|].
  inversion HW as [|? ? Hw HW']; subst. simpl. rewrite Hw.
  now apply star_spaces.
Qed.

Lemma consumed_all (u : list ascii) : consumed u [] = u.
Proof.
  unfold consumed. simpl. rewrite Nat.sub_0_r. apply firstn_all.
Qed.

Lemma short_number_head (u : list ascii) :
  short_number u -> exists c v, u = c :: v /\ is_space c = false.
Proof.
  intros H. field_cases H; eexists; eexists;
    (split; [reflexivity | now apply digit_not_space]).
Qed.

(** A text in an accepted shape, with fields in range, is matched whole,
    field by field. *)
Lemma match_format_complete (D M Y W H N : list ascii) (d m h mi : Z) :
  day_number D -> py_int D = Some d -> 1 <= d <= 31 ->
  short_number M -> py_int M = Some m -> 1 <= m <= 12 ->
  List.length Y = 4%nat -> digits Y ->
  white W ->
  short_number H -> py_int H = Some h -> 0 <= h <= 23 ->
  short_number N -> py_int N = Some mi -> 0 <= mi <= 59 ->
  match_items format
    (D ++ "/"%char :: M ++ "/"%char :: Y ++ W ++ H ++ ":"%char :: N) []
  = Some ([(dir_M, N); (dir_H, H); (dir_Y, Y); (dir_m, M); (dir_d, D)], []).
Proof.
  intros SD VD RD SM VM RM LY SY HW SH VH RH SN VN RN.
  unfold format. cbn [match_items].
  eapply match_day; eauto. rewrite consumed_app.
  cbn [rmatch]. rewrite Ascii.eqb_refl.
  eapply match_month; eauto. rewrite consumed_app.
  cbn [rmatch]. rewrite Ascii.eqb_refl.
  rewrite match_year by assumption. rewrite consumed_app.
  destruct (short_number_head H SH) as (c & v & EH & Hc).
  rewrite EH. cbn [app]. eapply match_white; eauto. rewrite <- EH.
  replace (c :: v ++ ":"%char :: N) with (H ++ ":"%char :: N)
    by (rewrite EH; reflexivity).
  eapply match_hour; eauto. rewrite consumed_app.
  cbn [rmatch]. rewrite Ascii.eqb_refl.
  eapply match_minute; eauto. rewrite consumed_all. reflexivity.
Qed.

Lemma days_in_month_le (y m : Z) : _days_in_month y m <= 31.
Proof.
  unfold _days_in_month.
  destruct ((m =? 2) && _is_leap y)%bool; [lia|].
  unfold _DAYS_IN_MONTH.
  repeat match goal with
         | |- context [match ?z with _ => _ end] => destruct z
         end; lia.
Qed.

(** A text in an accepted shape that names a date-time that exists is
    read as that date-time. *)
Lemma strptime_complete (s : string) (dt : datetime) :
  accepted s dt -> valid_datetime dt = true ->
  second dt = 0 -> microsecond dt = 0 ->
  strptime s = Ok dt.
Proof.
  intros (D & M & Y & W & H & N & Hs & SD & VD & SM & VM & LY & SY & VY
          & HW & SH & VH & SN & VN) Hv Hsec Hus.
  unfold valid_datetime, check_time_fields in Hv.
  apply andb_prop in Hv as [Hdate Htime].
  pose proof Hdate as Hdate'. unfold check_date_fields in Hdate'.
  repeat match goal with
         | Hb : (_ && _)%bool = true |- _ => apply andb_prop in Hb as [? ?]
         end.
  repeat match goal with
         | Hb : (_ <=? _) = true |- _ => apply Z.leb_le in Hb
         end.
  pose proof (days_in_month_le (year dt) (month dt)) as Hdim.
  unfold strptime. rewrite Hs.
  rewrite (match_format_complete D M Y W H N
             (day dt) (month dt) (hour dt) (minute dt))
    by (assumption || lia).
  cbn [field lookup directive_eqb]. rewrite VD, VM, VY, VH, VN.
  cbn [bind]. rewrite Hdate.
  destruct dt; simpl in *; subst; reflexivity.
Qed.

(** ** Zero-padded numbers *)

Lemma digit_char_cases (d : Z) :
  0 <= d < 10 -> is_digit (digit_char d) = true /\ digit_val (digit_char d) = d.
Proof.
  intros H.
  assert (E : d = 0 \/ d = 1 \/ d = 2 \/ d = 3 \/ d = 4 \/ d = 5 \/ d = 6
              \/ d = 7 \/ d = 8 \/ d = 9) by lia.
  decompose [or] E; subst; split; reflexivity.
Qed.

Lemma digits_value_app (u v : list ascii) :
  forall acc,
  digits_value acc (u ++ v) =
  match digits_value acc u with
  | Some a => digits_value a v
  | None => None
  end.
Proof.
  induction u as [|c u IH]; intros acc; simpl; [reflexivity|].
  destruct (is_digit c); [apply IH | reflexivity].
Qed.

Lemma fixed_digits_length (w : nat) : forall n, List.length (fixed_digits w n) = w.
Proof.
  induction w as [|w IH]; intros n; simpl; [reflexivity|].
  rewrite length_app, IH. simpl. lia.
Qed.

Lemma fixed_digits_digits (w : nat) : forall n, digits (fixed_digits w n).
Proof.
  induction w as [|w IH]; intros n; simpl; [constructor|].
  apply Forall_app. split; [apply IH|].
  constructor; [|constructor].
  apply digit_char_cases. apply Z.mod_pos_bound. lia.
Qed.

Lemma fixed_digits_value (w : nat) :
  forall n acc, 0 <= n < 10 ^ Z.of_nat w ->
  digits_value acc (fixed_digits w n) = Some (acc * 10 ^ Z.of_nat w + n).
Proof.
  induction w as [|w IH]; intros n acc Hn.
  - simpl in *. f_equal; lia.
  - rewrite Nat2Z.inj_succ, Z.pow_succ_r in * by lia.
    cbn [fixed_digits]. rewrite digits_value_app.
    assert (Hq : 0 <= n / 10 < 10 ^ Z.of_nat w).
    { split; [apply Z.div_pos; lia|].
      apply Z.div_lt_upper_bound; lia. }
    rewrite (IH (n / 10) acc Hq). cbn [digits_value].
    assert (Hr : 0 <= n mod 10 < 10) by (apply Z.mod_pos_bound; lia).
    destruct (digit_char_cases _ Hr) as [-> ->].
    f_equal. pose proof (Z.div_mod n 10 ltac:(lia)). lia.
Qed.

Lemma fixed_digits_int (w : nat) (n : Z) :
  (0 < w)%nat -> 0 <= n < 10 ^ Z.of_nat w ->
  py_int (fixed_digits w n) = Some n.
Proof.
  intros Hw Hn. rewrite py_int_digits.
  - rewrite fixed_digits_value by assumption. f_equal; lia.
  - intros E. apply (f_equal (@List.length ascii)) in E.
    rewrite fixed_digits_length in E. simpl in E. lia.
  - apply fixed_digits_digits.
Qed.

Lemma fixed_two_short (n : Z) : short_number (fixed_digits 2 n).
Proof.
  split; [right; apply fixed_digits_length | apply fixed_digits_digits].
Qed.

(** The fixed rendering of a date-time that exists is in an accepted
    shape. *)
Lemma fixed_string_accepted (dt : datetime) :
  valid_datetime dt = true -> accepted (date_to_fixed_string dt) dt.
Proof.
  intros Hv.
  unfold valid_datetime, check_date_fields, check_time_fields in Hv.
  repeat match goal with
         | Hb : (_ && _)%bool = true |- _ => apply andb_prop in Hb as [? ?]
         end.
  repeat match goal with
         | Hb : (_ <=? _) = true |- _ => apply Z.leb_le in Hb
         end.
  pose proof (days_in_month_le (year dt) (month dt)) as Hdim.
  exists (fixed_digits 2 (day dt)), (fixed_digits 2 (month dt)),
    (fixed_digits 4 (year dt)), [" "%char],
    (fixed_digits 2 (hour dt)), (fixed_digits 2 (minute dt)).
  unfold date_to_fixed_string.
  rewrite list_ascii_of_string_of_list_ascii.
  repeat split;
    try (left; apply fixed_two_short);
    try apply fixed_two_short;
    try apply fixed_digits_length;
    try apply fixed_digits_digits;
    try (apply fixed_digits_int; [lia | simpl; lia]);
    try discriminate.
  repeat constructor.
Qed.

(** The fixed rendering of a date-time that exists, to the minute, is read
    back as that date-time. *)
Lemma fixed_string_parses (dt : datetime) :
  valid_datetime dt = true -> second dt = 0 -> microsecond dt = 0 ->
  parse_date (Some (date_to_fixed_string dt)) = Ok dt.
Proof.
  intros Hv Hs Hu. cbn [parse_date].
  apply strptime_complete; auto. now apply fixed_string_accepted.
Qed.

Lemma fixed_string_length (dt : datetime) :
  List.length (list_ascii_of_string (date_to_fixed_string dt)) = 16%nat.
Proof.
  unfold date_to_fixed_string. rewrite list_ascii_of_string_of_list_ascii.
  repeat (rewrite length_app || rewrite fixed_digits_length
          || cbn [List.length]).
  reflexivity.
Qed.

Lemma strptime_value_error (s : string) :
  (exists dt, strptime s = Ok dt) \/ strptime s = Err ValueError.
Proof.
  unfold strptime, field.
  destruct (match_items format (list_ascii_of_string s) [])
    as [[found rest]|]; [|now right].
  destruct rest; [|now right].
  repeat match goal with
         | |- context [lookup ?d found] => destruct (lookup d found)
         | |- context [py_int ?v] => destruct (py_int v)
         | |- context [check_date_fields ?y ?m ?d] =>
             destruct (check_date_fields y m d)
         | _ => progress cbn [bind]
         end; (now right) || (left; eexists; reflexivity).
Qed.

(** ** [parse_date] *)

(** C8. Round trip: for every date-time that exists and has no seconds and
    no microseconds, [parse_date] of its rendering in the fixed format
    DD/MM/YYYY HH:MM is that date-time. *)
Theorem parse_date_round_trip (dt : datetime) :
  valid_datetime dt = true -> second dt = 0 -> microsecond dt = 0 ->
  parse_date (Some (date_to_fixed_string dt)) = Ok dt.
Proof.
  intros Hv Hs Hu. cbn [parse_date].
  apply strptime_complete.
  - apply fixed_string_accepted. exact Hv.
  - exact Hv.
  - exact Hs.
  - exact Hu.
Qed.

Lemma parse_date_round_trip_witness :
  parse_date (Some (date_to_fixed_string (mkdatetime 2018 6 5 7 30 0 0)))
  = Ok (mkdatetime 2018 6 5 7 30 0 0).
Proof.
  apply (parse_date_round_trip (mkdatetime 2018 6 5 7 30 0 0));
    reflexivity.
Defined.

(** C5, as the code has it, for strings whose characters have code points
    below 256.  [parse_date] returns a date-time exactly for
    the strings made of day, slash, month, slash, a year of four digits,
    white space, hour, colon and minute, where day, month, hour and minute
    have one or two digits (the day may also be a space and a digit) and
    the five numbers name a date-time that exists; the result is that
    date-time, with no seconds.  In particular the zero-padded rendering
    of a date-time is read back.  Every other such string raises
    [ValueError] (FormatError in the specification): nothing is read in
    part. *)
Theorem parse_date_accepts_exactly :
  (forall s dt,
     parse_date (Some s) = Ok dt <->
     accepted s dt /\ valid_datetime dt = true
     /\ second dt = 0 /\ microsecond dt = 0) /\
  (forall s,
     (exists dt, parse_date (Some s) = Ok dt)
     \/ parse_date (Some s) = Err ValueError) /\
  (forall dt,
     valid_datetime dt = true -> second dt = 0 -> microsecond dt = 0 ->
     parse_date (Some (date_to_fixed_string dt)) = Ok dt).
Proof.
  split; [|split].
  - intros s dt. cbn [parse_date]. split.
    + apply strptime_sound.
    + intros (Ha & Hv & Hs & Hu). now apply strptime_complete.
  - intros s. apply strptime_value_error.
  - apply fixed_string_parses.
Qed.

Lemma parse_date_accepts_exactly_witness :
  accepted "1/2/2020 3:04" (mkdatetime 2020 2 1 3 4 0 0)
  /\ valid_datetime (mkdatetime 2020 2 1 3 4 0 0) = true
  /\ second (mkdatetime 2020 2 1 3 4 0 0) = 0
  /\ microsecond (mkdatetime 2020 2 1 3 4 0 0) = 0.
Proof.
  apply (proj1 (proj1 parse_date_accepts_exactly "1/2/2020 3:04"
                  (mkdatetime 2020 2 1 3 4 0 0))).
  reflexivity.
Defined.

(** C5 as stated fails: a string whose fields are not zero-padded is not
    the fixed rendering of any date-time, and [parse_date] reads it. *)
Lemma unpadded_date_is_read :
  parse_date (Some "1/2/2020 3:04") = Ok (mkdatetime 2020 2 1 3 4 0 0) /\
  (forall dt, date_to_fixed_string dt <> "1/2/2020 3:04").
Proof.
  split; [reflexivity|].
  intros dt E. pose proof (fixed_string_length dt) as L.
  rewrite E in L. discriminate L.
Qed.

Example parse_date_padded :
  parse_date (Some "05/06/2018 07:30") = Ok (mkdatetime 2018 6 5 7 30 0 0).
Proof. reflexivity. Qed.

Example parse_date_two_spaces :
  parse_date (Some "05/06/2018  07:30") = Ok (mkdatetime 2018 6 5 7 30 0 0).
Proof. reflexivity. Qed.

Example parse_date_february_30 :
  parse_date (Some "30/02/2018 07:30") = Err ValueError.
Proof. reflexivity. Qed.

Example parse_date_hour_24 :
  parse_date (Some "05/06/2018 24:30") = Err ValueError.
Proof. reflexivity. Qed.

Example parse_date_dashes :
  parse_date (Some "05-06-2018 07:30") = Err ValueError.
Proof. reflexivity. Qed.

Example parse_date_trailing :
  parse_date (Some "05/06/2018 07:305") = Err ValueError.
Proof. reflexivity. Qed.

Example parse_date_none : parse_date None = Err TypeError.
Proof. reflexivity. Qed.

(** ** [report] *)

Lemma substring_all (s : string) : substring 0 (String.length s) s = s.
Proof. induction s as [|c s IH]; simpl; [reflexivity | now rewrite IH]. Qed.

Lemma slice_from_two (s : string) :
  slice_from 2 s =
  match s with
  | String _ (String _ t) => t
  | _ => ""
  end.
Proof.
  destruct s as [|a [|b t]]; try reflexivity.
  unfold slice_from. cbv zeta. change (2 <? 0) with false. cbv iota.
  set (len := Z.of_nat (String.length (String a (String b t)))).
  assert (E : len = Z.of_nat (String.length t) + 2)
    by (subst len; cbn [String.length]; lia).
  rewrite Z.min_l by lia.
  replace (Z.to_nat (len - 2)) with (String.length t) by lia.
  change (Z.to_nat 2) with 2%nat. cbn [substring]. apply substring_all.
Qed.

(** C9. [report] raises nothing on what [parse_page] returns; the suffix
    of the details link is the reference without its first two characters,
    for every reference, and it is empty when the reference has fewer than
    two characters. *)
Theorem report_never_fails :
  (forall today tree issues,
     parse_page today tree = Ok issues -> exists out, report issues = Ok out)
  /\ (forall i, list_ascii_of_string (outage_id i)
                = skipn 2 (list_ascii_of_string (reference i)))
  /\ (forall i, (String.length (reference i) < 2)%nat -> outage_id i = "").
Proof.
  split; [|split].
  - intros today tree issues H.
    apply parse_page_buckets in H as (rc & rp & rq & _ & _ & _ & ->).
    eexists. reflexivity.
  - intros i. unfold outage_id. rewrite slice_from_two.
    destruct (reference i) as [|a [|b t]]; reflexivity.
  - intros i H. unfold outage_id. rewrite slice_from_two.
    destruct (reference i) as [|a [|b t]]; try reflexivity.
    simpl in H. lia.
Qed.

Lemma report_never_fails_witness :
  (exists out,
     report [[mkissue (Some "Fault") "CR12345"
                (mkdatetime 2018 6 10 8 0 0 0)
                (mkdatetime 2018 6 10 18 0 0 0) (Some "X1")]; []; []]
     = Ok out)
  /\ outage_id (mkissue None "C" (mkdatetime 2018 6 10 8 0 0 0)
                  (mkdatetime 2018 6 10 18 0 0 0) None) = "".
Proof.
  split.
  - apply (proj1 report_never_fails sample_today doc_current). reflexivity.
  - apply (proj2 (proj2 report_never_fails)). simpl. lia.
Defined.

Example report_planned_lines :
  report [[]; [mkissue (Some "Work") "PW50001"
                 (mkdatetime 2018 6 11 1 0 0 0)
                 (mkdatetime 2018 6 11 5 0 0 0) (Some "B")]; []]
  = Ok ["Outage planned at 2018-06-11T01:00:00";
        "Outage PW50001 planned to start at 2018-06-11T01:00:00 and end at 2018-06-11T05:00:00. Hopefully check reference PW50001 at https://status.zen.co.uk/broadband/maintenance-outage-details.aspx?reference=50001"].
Proof. reflexivity. Qed.

Example report_current_heading_only :
  report [[mkissue (Some "Fault") "CR12345"
             (mkdatetime 2018 6 10 8 0 0 0)
             (mkdatetime 2018 6 10 18 0 0 0) (Some "X1")]; []; []]
  = Ok ["Outage current at 2018-06-10T08:00:00"].
Proof. reflexivity. Qed.

Example parse_page_scenario :
  parse_page sample_today doc_current
  = Ok [[mkissue (Some "Fault") "CR12345" (mkdatetime 2018 6 10 8 0 0 0)
           (mkdatetime 2018 6 10 18 0 0 0) (Some "X1")]; []; []].
Proof. reflexivity. Qed.

(** * Further properties *)

(** ** What [parse_page] returns *)

Lemma parse_date_to_the_minute (t : option string) (dt : datetime) :
  parse_date t = Ok dt -> to_the_minute dt.
Proof.
  destruct t as [s|]; [|discriminate]. cbn [parse_date]. intros H.
  apply strptime_sound in H as (_ & Hv & Hs & Hu). now split.
Qed.

Lemma parse_row_to_the_minute (r : element) (i : issue) :
  parse_row r = Ok i -> to_the_minute (start i) /\ to_the_minute (end_ i).
Proof.
  unfold parse_row. intros H.
  apply bind_ok in H as (c0 & _ & H).
  apply bind_ok in H as (c1 & _ & H).
  apply bind_ok in H as (c2 & _ & H).
  apply bind_ok in H as (st & Hst & H).
  apply bind_ok in H as (c3 & _ & H).
  apply bind_ok in H as (en & Hen & H).
  apply bind_ok in H as (c4 & _ & H).
  injection H as <-. cbn [start end_].
  split; eapply parse_date_to_the_minute; eassumption.
Qed.

Lemma Forall2_reads_back (rows : list element) (recs : list issue)
    (i : issue) :
  Forall2 reads_as rows recs -> In i recs ->
  exists r, In r rows /\ reads_as r i.
Proof.
  induction 1 as [|r' i' rows recs Hr Hrest IH]; simpl; [tauto|].
  intros [<-|Hin].
  - exists r'. auto.
  - destruct (IH Hin) as (r & Hr' & Hi). exists r. auto.
Qed.

(** X1. A result of [parse_page] has exactly three lists, and every record
    in them passes the recency test and carries a start and an end that are
    date-times that exist, with neither seconds nor microseconds. *)
Theorem parse_page_result_shape (today : date) (tree : element)
    (issues : list (list issue)) :
  parse_page today tree = Ok issues ->
  List.length issues = 3%nat /\
  Forall (Forall (fun i => in_window today i = true
                           /\ to_the_minute (start i)
                           /\ to_the_minute (end_ i))) issues.
Proof.
  intros H.
  apply parse_page_buckets in H as (rc & rp & rq & Hc & Hp & Hq & ->).
  split; [reflexivity|].
  assert (G : forall rows recs, Forall2 reads_as rows recs ->
            Forall (fun i => in_window today i = true
                             /\ to_the_minute (start i)
                             /\ to_the_minute (end_ i))
                   (filter (in_window today) recs)).
  { intros rows recs HF. apply Forall_forall. intros i Hi.
    apply filter_In in Hi as [Hi Hw]. split; [exact Hw|].
    destruct (Forall2_reads_back _ _ _ HF Hi) as (r & _ & Hr).
    now apply parse_row_to_the_minute in Hr. }
  repeat constructor; eapply G; eassumption.
Qed.

Lemma parse_page_result_shape_witness :
  List.length
    [[mkissue (Some "Fault") "CR50000"
        (mkdatetime 2018 6 10 8 0 0 0) (mkdatetime 2018 6 10 18 0 0 0)
        (Some "A")];
     [mkissue (Some "Work") "PW50001"
        (mkdatetime 2018 6 11 1 0 0 0) (mkdatetime 2018 6 11 5 0 0 0)
        (Some "B")];
     []] = 3%nat /\
  Forall (Forall (fun i => in_window sample_today i = true
                           /\ to_the_minute (start i)
                           /\ to_the_minute (end_ i)))
    [[mkissue (Some "Fault") "CR50000"
        (mkdatetime 2018 6 10 8 0 0 0) (mkdatetime 2018 6 10 18 0 0 0)
        (Some "A")];
     [mkissue (Some "Work") "PW50001"
        (mkdatetime 2018 6 11 1 0 0 0) (mkdatetime 2018 6 11 5 0 0 0)
        (Some "B")];
     []].
Proof.
  apply (parse_page_result_shape sample_today doc_three). reflexivity.
Defined.

(** ** Which exception [parse_page] raises *)

Lemma parse_rows_app (a b : list element) :
  parse_rows (a ++ b) =
  (ra <- parse_rows a ;; rb <- parse_rows b ;; Ok (ra ++ rb)).
Proof.
  induction a as [|r a IH]; simpl.
  - destruct (parse_rows b); reflexivity.
  - destruct (parse_row r) as [i|e]; simpl; [|reflexivity].
    rewrite IH. destruct (parse_rows a) as [ra|e]; simpl; [|reflexivity].
    destruct (parse_rows b); reflexivity.
Qed.

Lemma parse_rows_first_error (pre post : list element) (r : element)
    (e : exception) :
  (forall r', In r' pre -> is_ok (parse_row r') = true) ->
  parse_row r = Err e ->
  parse_rows (pre ++ r :: post) = Err e.
Proof.
  intros Hpre Hr. rewrite parse_rows_app.
  destruct (parse_rows_ok pre Hpre) as [recs ->]. simpl.
  now rewrite Hr.
Qed.

Lemma parse_page_error_of_order (today : date) (tree : element)
    (e : exception) :
  parse_rows (reading_order tree) = Err e -> parse_page today tree = Err e.
Proof.
  unfold reading_order. rewrite parse_page_spec, !parse_rows_app.
  destruct (parse_rows (xpath_rows (gridname 2) tree)) as [q|e2];
    cbn [bind]; [|intros H; injection H as ->; reflexivity].
  destruct (parse_rows (xpath_rows (gridname 1) tree)) as [p|e1];
    cbn [bind]; [|intros H; injection H as ->; reflexivity].
  destruct (parse_rows (xpath_rows (gridname 0) tree)) as [c|e0];
    cbn [bind]; [discriminate | intros H; injection H as ->; reflexivity].
Qed.

(** X2. The three tables are read in the order past, planned, current, and
    each from top to bottom; the exception of [parse_page] is that of the
    first row, in this order, that cannot be read, whatever the rows after
    it hold and whatever day it is. *)
Theorem first_unreadable_row_decides (today : date) (tree : element)
    (pre post : list element) (r : element) (e : exception) :
  reading_order tree = pre ++ r :: post ->
  (forall r', In r' pre -> is_ok (parse_row r') = true) ->
  parse_row r = Err e ->
  parse_page today tree = Err e.
Proof.
  intros Ho Hpre Hr. apply parse_page_error_of_order.
  rewrite Ho. now apply parse_rows_first_error.
Qed.

Lemma first_unreadable_row_decides_witness :
  parse_page sample_today doc_two_errors = Err ValueError.
Proof.
  apply (first_unreadable_row_decides sample_today doc_two_errors
           [] [row_short] row_bad_date ValueError).
  - reflexivity.
  - intros r' [].
  - reflexivity.
Defined.

(** ** Rows by their number of child nodes *)






(** ** What the path selects *)

Lemma select_no_tbody (g : string) (e : element) :
  forall it, has_tag "tbody" e = false -> select g it false e = [].
Proof.
  induction e as [t a tx tl cs IH | t tl] using element_forall_ind;
    [|reflexivity].
  intros it H. cbn [has_tag] in H. apply orb_false_elim in H as [Ht Hcs].
  cbn [select]. rewrite Ht, andb_false_r. cbn [andb orb app].
  generalize (it || is_table g (Element t a tx tl cs))%bool as it'.
  intros it'. clear it.
  induction cs as [|c cs IHcs]; [reflexivity|].
  cbn [flat_map existsb] in *. apply orb_false_elim in Hcs as [Hc Hcs].
  inversion IH as [|? ? Pc Pcs]; subst.
  rewrite (Pc _ Hc), (IHcs Pcs Hcs). reflexivity.
Qed.

(** X6. Rows count only inside a [tbody]: in a tree that has no [tbody]
    element the path selects nothing, for any table id, so [parse_page]
    returns three empty lists. *)
Theorem no_tbody_no_rows (today : date) (tree : element) :
  has_tag "tbody" tree = false ->
  (forall g, xpath_rows g tree = []) /\
  parse_page today tree = Ok [[]; []; []].
Proof.
  intros H.
  assert (E : forall g, xpath_rows g tree = [])
    by (intros g; now apply select_no_tbody).
  split; [exact E|]. rewrite parse_page_spec, !E. reflexivity.
Qed.

Lemma no_tbody_no_rows_witness :
  (forall g, xpath_rows g doc_no_tbody = []) /\
  parse_page sample_today doc_no_tbody = Ok [[]; []; []].
Proof.
  apply (no_tbody_no_rows sample_today doc_no_tbody). reflexivity.
Defined.

(** X7. A row is selected at most once, however many tables and bodies are
    nested around it: the path never selects more rows than the tree has
    [tr] elements. *)
Theorem rows_selected_once (g : string) (tree : element) :
  (List.length (xpath_rows g tree) <= count_tag "tr" tree)%nat.
Proof.
  unfold xpath_rows.
  enough (G : forall it ib,
            (List.length (select g it ib tree) <= count_tag "tr" tree)%nat)
    by apply G.
  induction tree as [t a tx tl cs IH | t tl] using element_forall_ind;
    [|intros; simpl; lia].
  intros it ib. cbn [select count_tag]. rewrite length_app.
  apply Nat.add_le_mono.
  - destruct (String.eqb t "tr"); [|rewrite andb_false_r; simpl; lia].
    destruct (ib && true)%bool; simpl; lia.
  - generalize (it || is_table g (Element t a tx tl cs))%bool as it'.
    generalize (ib || it && String.eqb t "tbody")%bool as ib'.
    intros ib' it'. clear it ib.
    induction IH as [|c cs Hc Hcs IHcs]; [simpl; lia|].
    cbn [flat_map map list_sum]. rewrite length_app.
    apply Nat.add_le_mono; [apply Hc | exact IHcs].
Qed.

(** ** The window and the calendar *)

(** X8. For an outage that does not end before it starts, the recency test
    holds exactly when some day of the outage is today, yesterday or
    tomorrow. *)
Theorem window_meets_outage (today : date) (i : issue) :
  toordinal (date_of (start i)) <= toordinal (date_of (end_ i)) ->
  (in_window today i = true <->
   exists d,
     toordinal today - 1 <= d <= toordinal today + 1 /\
     toordinal (date_of (start i)) <= d <= toordinal (date_of (end_ i))).
Proof.
  intros Hse. rewrite in_window_near. unfold near.
  rewrite andb_true_iff, !Z.ltb_lt. split.
  - intros [Hs He].
    exists (Z.max (toordinal (date_of (start i))) (toordinal today - 1)).
    lia.
  - intros (d & Hd & Hi). lia.
Qed.

Lemma window_meets_outage_witness :
  in_window sample_today
    (mkissue None "" (mkdatetime 2018 6 1 0 0 0 0)
       (mkdatetime 2018 6 9 23 0 0 0) None) = true <->
  exists d,
    toordinal sample_today - 1 <= d <= toordinal sample_today + 1 /\
    toordinal (date_of (mkdatetime 2018 6 1 0 0 0 0)) <= d
    <= toordinal (date_of (mkdatetime 2018 6 9 23 0 0 0)).
Proof.
  apply (window_meets_outage sample_today
           (mkissue None "" (mkdatetime 2018 6 1 0 0 0 0)
              (mkdatetime 2018 6 9 23 0 0 0) None)).
  vm_compute. discriminate.
Defined.

(** X9. The days on which a record passes the recency test are
    consecutive: a record kept on two days is kept on every day between
    them. *)
Theorem window_days_consecutive (t1 t2 t3 : date) (i : issue) :
  in_window t1 i = true -> in_window t3 i = true ->
  toordinal t1 <= toordinal t2 <= toordinal t3 ->
  in_window t2 i = true.
Proof.
  rewrite !in_window_near. unfold near.
  rewrite !andb_true_iff, !Z.ltb_lt. lia.
Qed.

Lemma window_days_consecutive_witness :
  in_window (mkdate 2018 6 10)
    (mkissue None "" (mkdatetime 2018 6 10 8 0 0 0)
       (mkdatetime 2018 6 10 18 0 0 0) None) = true.
Proof.
  apply (window_days_consecutive (mkdate 2018 6 9) (mkdate 2018 6 10)
           (mkdate 2018 6 11)).
  - reflexivity.
  - reflexivity.
  - vm_compute. split; discriminate.
Defined.

Lemma days_before_year_succ (y : Z) :
  _days_before_year (y + 1) =
  _days_before_year y + 365 + (if _is_leap y then 1 else 0).
Proof.
  unfold _days_before_year, _is_leap. cbv zeta.
  replace (y + 1 - 1) with y by lia.
  destruct (Z.eqb_spec (y mod 4) 0), (Z.eqb_spec (y mod 100) 0),
    (Z.eqb_spec (y mod 400) 0); cbn [negb andb orb];
    Z.div_mod_to_equations; lia.
Qed.

Lemma days_before_year_mono (y1 y2 : Z) :
  y1 <= y2 -> _days_before_year y1 <= _days_before_year y2.
Proof.
  unfold _days_before_year. cbv zeta. intros H.
  Z.div_mod_to_equations. lia.
Qed.

Ltac month_cases m :=
  let E := fresh "E" in
  assert (E : m = 1 \/ m = 2 \/ m = 3 \/ m = 4 \/ m = 5 \/ m = 6 \/ m = 7
              \/ m = 8 \/ m = 9 \/ m = 10 \/ m = 11 \/ m = 12) by lia;
  decompose [or] E; clear E; subst m.

Ltac date_bounds H :=
  unfold valid_date, check_date_fields in H;
  repeat match goal with
         | Hb : (_ && _)%bool = true |- _ => apply andb_prop in Hb as [? ?]
         end;
  repeat match goal with
         | Hb : (_ <=? _) = true |- _ => apply Z.leb_le in Hb
         end.

Lemma day_of_year_range (y m d : Z) :
  check_date_fields y m d = true ->
  1 <= _days_before_month y m + d
  <= 365 + (if _is_leap y then 1 else 0).
Proof.
  intros H. date_bounds H.
  unfold _days_in_month, _days_before_month in *.
  month_cases m; destruct (_is_leap y); cbn -[Z.add] in *; lia.
Qed.

Lemma day_of_year_mono (y m1 d1 m2 d2 : Z) :
  check_date_fields y m1 d1 = true -> check_date_fields y m2 d2 = true ->
  m1 < m2 ->
  _days_before_month y m1 + d1 < _days_before_month y m2 + d2.
Proof.
  intros H1 H2 Hm. date_bounds H1. date_bounds H2.
  unfold _days_in_month, _days_before_month in *.
  month_cases m1; month_cases m2; try lia;
    destruct (_is_leap y); cbn -[Z.add] in *; lia.
Qed.

(** Day numbers follow the calendar. *)
Lemma toordinal_mono (a b : date) :
  valid_date a = true -> valid_date b = true -> date_le a b = true ->
  toordinal a <= toordinal b.
Proof.
  destruct a as [y1 m1 d1], b as [y2 m2 d2].
  unfold valid_date, date_le, toordinal, _ymd2ord.
  cbn [d_year d_month d_day]. intros Ha Hb Hle.
  apply orb_prop in Hle as [Hy|Hle].
  - apply Z.ltb_lt in Hy.
    pose proof (day_of_year_range _ _ _ Ha).
    pose proof (day_of_year_range _ _ _ Hb).
    pose proof (days_before_year_succ y1).
    pose proof (days_before_year_mono (y1 + 1) y2 ltac:(lia)).
    lia.
  - apply andb_prop in Hle as [Hy Hle]. apply Z.eqb_eq in Hy. subst y2.
    apply orb_prop in Hle as [Hm|Hle].
    + apply Z.ltb_lt in Hm.
      pose proof (day_of_year_mono _ _ _ _ _ Ha Hb Hm). lia.
    + apply andb_prop in Hle as [Hm Hd]. apply Z.eqb_eq in Hm.
      apply Z.leb_le in Hd. subst m2. lia.
Qed.

(** X10. An outage in progress is kept: when the start date is today or
    before and the end date is today or after, as [date] values compare,
    the recency test holds. *)
Theorem outage_in_progress_kept (today : date) (i : issue) :
  valid_date today = true ->
  valid_date (date_of (start i)) = true ->
  valid_date (date_of (end_ i)) = true ->
  date_le (date_of (start i)) today = true ->
  date_le today (date_of (end_ i)) = true ->
  in_window today i = true.
Proof.
  intros Ht Hs He Hst Hte.
  pose proof (toordinal_mono _ _ Hs Ht Hst).
  pose proof (toordinal_mono _ _ Ht He Hte).
  rewrite in_window_near. unfold near.
  apply andb_true_intro; split; apply Z.ltb_lt; lia.
Qed.

Lemma outage_in_progress_kept_witness :
  in_window sample_today
    (mkissue None "" (mkdatetime 2017 12 31 23 0 0 0)
       (mkdatetime 2019 1 1 0 0 0 0) None) = true.
Proof.
  apply (outage_in_progress_kept sample_today
           (mkissue None "" (mkdatetime 2017 12 31 23 0 0 0)
              (mkdatetime 2019 1 1 0 0 0 0) None)); reflexivity.
Defined.

(** ** What [report] needs and prints *)

(** X11. [report] reads the first three lists and nothing else: with fewer
    than three lists it raises [IndexError], and with three or more it
    prints what it prints for the first three. *)
Theorem report_reads_three_lists (issues : list (list issue)) :
  ((List.length issues < 3)%nat -> report issues = Err IndexError) /\
  ((3 <= List.length issues)%nat ->
   is_ok (report issues) = true /\
   report issues = report (firstn 3 issues)).
Proof.
  destruct issues as [|c [|p [|q rest]]]; simpl; split;
    try (intros; reflexivity); try lia; intros; split; reflexivity.
Qed.

Lemma report_reads_three_lists_witness :
  report [[]; []] = Err IndexError /\
  is_ok (report [[]; []; []; []]) = true /\
  report [[]; []; []; []] = report (firstn 3 [[]; []; []; []]).
Proof.
  split.
  - apply (proj1 (report_reads_three_lists [[]; []])). simpl. lia.
  - apply (proj2 (report_reads_three_lists [[]; []; []; []])). simpl. lia.
Defined.

Lemma flat_map_length_const {A B : Type} (f : A -> list B) (n : nat)
    (l : list A) :
  (forall a, List.length (f a) = n) ->
  List.length (flat_map f l) = (n * List.length l)%nat.
Proof.
  intros Hf. induction l as [|a l IH]; simpl; [lia|].
  rewrite length_app, Hf, IH. lia.
Qed.

(** X12. [report] calls [print] once for each current issue and twice for
    each planned and each past issue: the details message of a current
    issue is built and not printed. *)
Theorem report_line_count (issues : list (list issue)) (out : list string) :
  report issues = Ok out ->
  List.length out =
  (List.length (nth 0 issues []) + 2 * List.length (nth 1 issues [])
   + 2 * List.length (nth 2 issues []))%nat.
Proof.
  destruct issues as [|c [|p [|q rest]]]; try discriminate.
  unfold report. cbn [bucket nth_error bind nth]. intros H.
  injection H as <-. rewrite !length_app.
  rewrite (flat_map_length_const report_current 1) by reflexivity.
  rewrite (flat_map_length_const report_planned 2) by reflexivity.
  rewrite (flat_map_length_const report_past 2) by reflexivity.
  lia.
Qed.

Lemma report_line_count_witness :
  List.length
    ["Outage current at 2018-06-10T08:00:00"%string] =
  (List.length
     (nth 0 [[mkissue (Some "Fault") "CR12345"
                (mkdatetime 2018 6 10 8 0 0 0)
                (mkdatetime 2018 6 10 18 0 0 0) (Some "X1")]; []; []] [])
   + 2 * List.length
           (nth 1 [[mkissue (Some "Fault") "CR12345"
                      (mkdatetime 2018 6 10 8 0 0 0)
                      (mkdatetime 2018 6 10 18 0 0 0) (Some "X1")]; []; []]
              [])
   + 2 * List.length
           (nth 2 [[mkissue (Some "Fault") "CR12345"
                      (mkdatetime 2018 6 10 8 0 0 0)
                      (mkdatetime 2018 6 10 18 0 0 0) (Some "X1")]; []; []]
              []))%nat.
Proof.
  apply (report_line_count
           [[mkissue (Some "Fault") "CR12345"
               (mkdatetime 2018 6 10 8 0 0 0)
               (mkdatetime 2018 6 10 18 0 0 0) (Some "X1")]; []; []]).
  reflexivity.
Defined.

(** ** More on [parse_date] *)

Lemma list_ascii_length (s : string) :
  List.length (list_ascii_of_string s) = String.length s.
Proof. induction s as [|c s IH]; simpl; [reflexivity | now rewrite IH]. Qed.

Lemma short_number_length (u : list ascii) :
  short_number u -> (1 <= List.length u)%nat.
Proof. intros [[H|H] _]; lia. Qed.

(** X13. A string of fewer than twelve characters, the empty string
    included, is never read as a date: [parse_date] raises
    [ValueError]. *)
Theorem short_string_rejected (s : string) :
  (String.length s < 12)%nat -> parse_date (Some s) = Err ValueError.
Proof.
  intros Hlen. cbn [parse_date].
  destruct (strptime_value_error s) as [[dt Hd]|Hv]; [|exact Hv].
  exfalso. apply strptime_sound in Hd as (Ha & _).
  destruct Ha as (D & M & Y & W & H & N & Hs & SD & _ & SM & _ & LY & _ & _
                  & HW & SH & _ & SN & _).
  apply (f_equal (@List.length ascii)) in Hs.
  rewrite list_ascii_length in Hs.
  repeat (rewrite length_app in Hs || cbn [List.length] in Hs).
  assert (1 <= List.length D)%nat.
  { destruct SD as [SD | (c & -> & _)];
      [now apply short_number_length | simpl; lia]. }
  pose proof (short_number_length _ SM).
  pose proof (short_number_length _ SH).
  pose proof (short_number_length _ SN).
  assert (1 <= List.length W)%nat.
  { destruct HW as [Hne _]. destruct W; [contradiction | simpl; lia]. }
  lia.
Qed.

Lemma short_string_rejected_witness :
  parse_date (Some "1/2/20 3:04") = Err ValueError.
Proof.
  apply (short_string_rejected "1/2/20 3:04"). simpl. lia.
Defined.

Lemma unpadded_short (n : Z) : 0 <= n < 100 -> short_number (unpadded n).
Proof.
  intros Hn. unfold unpadded. destruct (Z.ltb_spec n 10).
  - split; [left; reflexivity|].
    constructor; [|constructor]. apply digit_char_cases. lia.
  - apply fixed_two_short.
Qed.

Lemma unpadded_int (n : Z) : 0 <= n < 100 -> py_int (unpadded n) = Some n.
Proof.
  intros Hn. unfold unpadded. destruct (Z.ltb_spec n 10).
  - assert (Hd : 0 <= n < 10) by lia.
    destruct (digit_char_cases n Hd) as [Hdig Hval].
    rewrite py_int_digits;
      [|discriminate | constructor; [exact Hdig | constructor]].
    cbn [digits_value]. rewrite Hdig, Hval. f_equal; lia.
  - apply fixed_digits_int; [lia | simpl; lia].
Qed.

(** X14. Zero padding is not needed: for every date-time that exists and
    has neither seconds nor microseconds, [parse_date] reads the text
    D/M/YYYY H:M, in which day, month, hour and minute are written without
    padding, as that date-time. *)
Theorem unpadded_string_parses (dt : datetime) :
  valid_datetime dt = true -> second dt = 0 -> microsecond dt = 0 ->
  parse_date (Some (date_to_short_string dt)) = Ok dt.
Proof.
  intros Hv Hs Hu. cbn [parse_date].
  apply strptime_complete; try assumption.
  pose proof Hv as Hv'.
  unfold valid_datetime, check_date_fields, check_time_fields in Hv'.
  repeat match goal with
         | Hb : (_ && _)%bool = true |- _ => apply andb_prop in Hb as [? ?]
         end.
  repeat match goal with
         | Hb : (_ <=? _) = true |- _ => apply Z.leb_le in Hb
         end.
  pose proof (days_in_month_le (year dt) (month dt)) as Hdim.
  exists (unpadded (day dt)), (unpadded (month dt)),
    (fixed_digits 4 (year dt)), [" "%char],
    (unpadded (hour dt)), (unpadded (minute dt)).
  unfold date_to_short_string.
  rewrite list_ascii_of_string_of_list_ascii.
  repeat split;
    try (left; apply unpadded_short; lia);
    try (apply unpadded_short; lia);
    try (apply unpadded_int; lia);
    try apply fixed_digits_length;
    try apply fixed_digits_digits;
    try (apply fixed_digits_int; [lia | simpl; lia]);
    try discriminate.
  repeat constructor.
Qed.

Lemma unpadded_string_parses_witness :
  parse_date (Some (date_to_short_string (mkdatetime 2018 6 5 7 3 0 0)))
  = Ok (mkdatetime 2018 6 5 7 3 0 0).
Proof.
  apply (unpadded_string_parses (mkdatetime 2018 6 5 7 3 0 0));
    reflexivity.
Defined.

Example short_string_of_a_date :
  date_to_short_string (mkdatetime 2018 6 5 7 3 0 0) = "5/6/2018 7:3".
Proof. reflexivity. Qed.
